(** * GradientButton: a shallow embedding of [src/index.tsx]

    The component is one function from a property bag to a view tree.  It
    validates [text] and [colors], strips three colour keys from the caller's
    [textStyle] object, partitions [style] into an outer and an inner style
    object, and returns a fixed nest of host components.

    The embedding keeps the parts of JavaScript the function relies on:
    dynamically typed values, truthiness, [typeof], objects and arrays that
    live in a store and are passed by reference, exceptions, and the console.

    Fragment of JavaScript that is modelled: an object is a finite record of
    own enumerable data properties, listed in its enumeration order; an array
    is a dense list of elements; an object may be frozen or sealed, and the
    module is strict code, so deleting a property of such an object throws.
    Accessor properties, prototypes carrying extra keys and sparse arrays
    are outside the model. *)

From Stdlib Require Import Floats Ascii.
From stdpp Require Import gmap strings list pretty.

Local Open Scope string_scope.
Local Open Scope list_scope.
Set Warnings "-register-all,-inexact-float".

(** ** Values, objects and the store *)

Module JS.

Definition loc := positive.

(** A JavaScript value.  Objects and arrays are references into the store,
    functions are opaque. *)
Inductive value :=
| VUndefined
| VNull
| VBool (b : bool)
| VNumber (x : float)
| VString (s : string)
| VFunction (f : nat)
| VRef (l : loc).

(** An object: its own enumerable properties in enumeration order. *)
Abbreviation object := (list (string * value)).

Inductive cell :=
| CObject (o : object)
| CArray (a : list value).

(** The store, the console and the objects that are frozen or sealed: none
    of their properties can be deleted. *)
Record state := State {
  heap : gmap loc cell;
  console : list string;
  frozen : gset loc;
}.

(** [!v] is [negb (truthy v)]: the falsy values are undefined, null, false,
    zero (of either sign), NaN and the empty string. *)
Definition truthy (v : value) : bool :=
  match v with
  | VUndefined | VNull => false
  | VBool b => b
  | VNumber x => negb (PrimFloat.eqb x 0 || negb (PrimFloat.eqb x x))
  | VString s => negb (String.eqb s "")
  | VFunction _ | VRef _ => true
  end.

Definition typeof (v : value) : string :=
  match v with
  | VUndefined => "undefined"
  | VNull => "object"
  | VBool _ => "boolean"
  | VNumber _ => "number"
  | VString _ => "string"
  | VFunction _ => "function"
  | VRef _ => "object"
  end.

(** [a || b] *)
Definition js_or (a b : value) : value := if truthy a then a else b.

Definition Array_isArray (h : gmap loc cell) (v : value) : bool :=
  match v with
  | VRef l => match h !! l with Some (CArray _) => true | _ => false end
  | _ => false
  end.

(** The elements of an array value (nothing for any other value). *)
Definition array_elements (h : gmap loc cell) (v : value) : list value :=
  match v with
  | VRef l => match h !! l with Some (CArray a) => a | _ => [] end
  | _ => []
  end.

(** [Object.entries(v)] for a non-array object value. *)
Definition Object_entries (h : gmap loc cell) (v : value) : object :=
  match v with
  | VRef l => match h !! l with Some (CObject o) => o | _ => [] end
  | _ => []
  end.

(** [list.includes(key)] on an array literal of strings. *)
Definition includes (l : list string) (key : string) : bool :=
  bool_decide (key ∈ l).

Section Props.
Context {A : Type}.

Definition keys (o : list (string * A)) : list string := o.*1.

(** [o[k]], [None] standing for a missing property. *)
Fixpoint get_prop (k : string) (o : list (string * A)) : option A :=
  match o with
  | [] => None
  | (k', v) :: o' => if decide (k = k') then Some v else get_prop k o'
  end.

(** [k in o] *)
Definition has_prop (k : string) (o : list (string * A)) : bool :=
  bool_decide (k ∈ keys o).

(** [o[k] = v]: an existing property keeps its place, a new one goes last. *)
Fixpoint set_prop (k : string) (v : A) (o : list (string * A))
  : list (string * A) :=
  match o with
  | [] => [(k, v)]
  | (k', v') :: o' =>
      if decide (k = k') then (k, v) :: o' else (k', v') :: set_prop k v o'
  end.

(** [delete o[k]] *)
Definition delete_prop (k : string) (o : list (string * A))
  : list (string * A) :=
  filter (λ kv, kv.1 ≠ k) o.

(** [{...target, ...src}], [Object.assign(target, src)] *)
Definition assign (target src : list (string * A)) : list (string * A) :=
  foldl (λ acc kv, set_prop kv.1 kv.2 acc) target src.
End Props.

(** ** Completions and the render monad *)

Inductive completion (A : Type) :=
| Normal (a : A)
| Throw (message : string).
Arguments Normal {A} a.
Arguments Throw {A} message.

Definition M (A : Type) : Type := state → completion A * state.

Definition ret {A} (a : A) : M A := λ s, (Normal a, s).

Definition bind {A B} (k : A → M B) (m : M A) : M B :=
  λ s, match m s with
       | (Normal a, s') => k a s'
       | (Throw e, s') => (Throw e, s')
       end.

#[global] Instance M_ret : MRet M := @ret.
#[global] Instance M_bind : MBind M := @bind.

Definition throw {A} (message : string) : M A := λ s, (Throw message, s).

Definition get_heap : M (gmap loc cell) := λ s, (Normal (heap s), s).

(** [console.warn(message)] *)
Definition console_warn (message : string) : M unit :=
  λ s, (Normal tt, State (heap s) (console s ++ [message]) (frozen s)).

(** The TypeError strict code raises when [delete] meets a property it
    cannot remove; the text after the error name depends on the engine. *)
Definition cannot_delete (k : string) : string :=
  "TypeError: Cannot delete property " +:+ k.

(** [delete v[k]] on an object in the store, in strict code: deleting an own
    property of a frozen or sealed object throws; deleting a property the
    object does not have succeeds and changes nothing. *)
Definition delete_property (v : value) (k : string) : M unit :=
  λ s, match v with
       | VRef l =>
           match heap s !! l with
           | Some (CObject o) =>
               if bool_decide (l ∈ frozen s) && has_prop k o
               then (Throw (cannot_delete k), s)
               else
                 (Normal tt,
                  State (<[l := CObject (delete_prop k o)]> (heap s))
                    (console s) (frozen s))
           | _ => (Normal tt, s)
           end
       | _ => (Normal tt, s)
       end.

(** [k in v] for an object value.  An array has none of the string keys the
    component asks about. *)
Definition in_object (k : string) (v : value) : M bool :=
  λ s, (Normal (has_prop k (Object_entries (heap s) v)), s).

End JS.

Import JS.

(** [xs.forEach((x, index) => f x index)], starting at [index]. *)
Fixpoint forEach_from {A} (f : A → nat → M unit) (xs : list A) (index : nat)
  : M unit :=
  match xs with
  | [] => ret tt
  | x :: xs' => f x index;; forEach_from f xs' (S index)
  end.

Definition forEach {A} (f : A → nat → M unit) (xs : list A) : M unit :=
  forEach_from f xs 0.

(** A [forEach] whose callback updates captured local variables: the locals
    are threaded through as an accumulator. *)
Fixpoint forEach_acc {A S} (f : S → A → M S) (xs : list A) (acc : S) : M S :=
  match xs with
  | [] => ret acc
  | x :: xs' => acc' ← f acc x; forEach_acc f xs' acc'
  end.

(** The double quote character of the template literals. *)
Definition dquote : string := String (ascii_of_nat 34) EmptyString.

(** ** The view tree *)

Inductive component :=
| View
| TouchableOpacity
| Text
| ActivityIndicator
| MaskedView
| LinearGradient.

(** What a JSX expression of the component evaluates to.  [JVal] is a value
    of the caller handed on as it is (objects by reference); [JObject] is an
    object the module owns: a literal built during the render or an entry of
    the module's style sheet; [JHost] names a constant of the host framework;
    [JElement] carries the attributes after spreading and the children. *)
Inductive jsx :=
| JVal (v : value)
| JObject (o : object)
| JArray (items : list jsx)
| JHost (name : string)
| JElement (type : component) (attrs : list (string * jsx))
    (children : list jsx).

Definition attrs_of (e : jsx) : list (string * jsx) :=
  match e with JElement _ a _ => a | _ => [] end.

Definition children_of (e : jsx) : list jsx :=
  match e with JElement _ _ c => c | _ => [] end.

Definition type_of (e : jsx) : option component :=
  match e with JElement t _ _ => Some t | _ => None end.

Definition attr (k : string) (e : jsx) : option jsx :=
  get_prop k (attrs_of e).

(** [{...base, ...rest}] inside a JSX opening tag. *)
Definition spread (rest : object) (base : list (string * jsx))
  : list (string * jsx) :=
  foldl (λ acc kv, set_prop kv.1 (JVal kv.2) acc) base rest.

(** Paths into the returned tree. *)
Definition touchable (tree : jsx) : option jsx := children_of tree !! 0.

Definition masked_view (tree : jsx) : option jsx :=
  t ← touchable tree; c ← children_of t !! 0; children_of c !! 0.

Definition mask (tree : jsx) : option jsx :=
  m ← masked_view tree; attr "maskElement" m.

Definition mask_contents (tree : jsx) : list jsx :=
  from_option children_of [] (mask tree).

#[global] Instance component_eq_dec : EqDecision component.
Proof. solve_decision. Defined.

(** How many elements of type [c] a tree holds, attributes included. *)
Fixpoint count (c : component) (e : jsx) : nat :=
  match e with
  | JElement t attrs children =>
      (if decide (t = c) then 1 else 0)
      + sum_list (map (λ kv, let '(_, a) := kv in count c a) attrs)
      + sum_list (map (count c) children)
  | JArray items => sum_list (map (count c) items)
  | JVal _ | JObject _ | JHost _ => 0
  end.

(** ** The module's style sheet: [StyleSheet.create({...})] *)

Module styles.
Definition button : object := [("width", VString "100%")].
Definition buttonContent : object :=
  [("width", VString "100%"); ("height", VString "100%")].
Definition maskContainer : object :=
  [("width", VString "100%"); ("height", VString "100%");
   ("borderRadius", VNumber 60); ("padding", VString "10%")].
Definition innerButton : object :=
  [("flexDirection", VString "row"); ("alignItems", VString "center");
   ("justifyContent", VString "center")].
Definition buttonText : object :=
  [("color", VString "#000000"); ("textShadowColor", VString "#000000")].
End styles.

Definition StyleSheet_absoluteFill : jsx := JHost "StyleSheet.absoluteFill".

(** ** Destructuring of the property bag *)

(** [props.k], [undefined] for a missing property. *)
Definition prop (k : string) (props : object) : value :=
  default VUndefined (get_prop k props).

(** [k = d] in a destructuring pattern: the default is taken exactly when
    the property is [undefined]. *)
Definition prop_or (k : string) (d : value) (props : object) : value :=
  match prop k props with
  | VUndefined => d
  | v => v
  end.

(** The same for a default that is an object literal. *)
Definition prop_or_object (k : string) (d : object) (props : object) : jsx :=
  match prop k props with
  | VUndefined => JObject d
  | v => JVal v
  end.

(** The names bound by the destructuring pattern, in its order. *)
Definition destructured : list string :=
  ["text"; "colors"; "onPress";
   "style"; "textStyle"; "loading"; "loadingColor"; "loadingSize";
   "start"; "end"; "locations"; "useAngle"; "angle"; "angleCenter";
   "disabled"; "activeOpacity";
   "accessibilityRole"; "accessibilityLabel"; "accessibilityHint"].

(** The local variables the parameter pattern binds. *)
Record locals := Locals {
  text : value;
  colors : value;
  onPress : value;
  style : value;
  textStyle : value;
  loading : value;
  loadingColor : value;
  loadingSize : value;
  start : jsx;
  end_ : jsx;
  locations : value;
  useAngle : value;
  angle : value;
  angleCenter : value;
  disabled : value;
  activeOpacity : value;
  accessibilityRole : value;
  accessibilityLabel : value;
  accessibilityHint : value;
  touchableProps : object;
}.

Definition destructure (props : object) : locals := {|
  text := prop "text" props;
  colors := prop "colors" props;
  onPress := prop "onPress" props;
  style := prop "style" props;
  textStyle := prop "textStyle" props;
  loading := prop_or "loading" (VBool false) props;
  loadingColor := prop_or "loadingColor" (VString "#FFFFFF") props;
  loadingSize := prop_or "loadingSize" (VString "small") props;
  start := prop_or_object "start" [("x", VNumber 0); ("y", VNumber 0)] props;
  end_ := prop_or_object "end" [("x", VNumber 1); ("y", VNumber 0)] props;
  locations := prop "locations" props;
  useAngle := prop_or "useAngle" (VBool false) props;
  angle := prop_or "angle" (VNumber 0) props;
  angleCenter := prop "angleCenter" props;
  disabled := prop_or "disabled" (VBool false) props;
  activeOpacity := prop_or "activeOpacity" (VNumber 0.7) props;
  accessibilityRole := prop_or "accessibilityRole" (VString "button") props;
  accessibilityLabel := prop "accessibilityLabel" props;
  accessibilityHint := prop "accessibilityHint" props;
  (* ...touchableProps: the own properties the pattern did not name *)
  touchableProps := filter (λ kv, kv.1 ∉ destructured) props;
|}.

(** ** splitStyle *)

Definition rejectedStyleProps : list string :=
  ["backgroundColor"; "borderColor"; "shadowColor"; "color"].

Definition layoutStyleProps : list string :=
  ["width"; "height";
   "margin"; "marginTop"; "marginBottom"; "marginLeft"; "marginRight";
   "marginHorizontal"; "marginVertical";
   "padding"; "paddingTop"; "paddingBottom"; "paddingLeft"; "paddingRight";
   "paddingHorizontal"; "paddingVertical"].

Definition style_warning (key : string) : string :=
  "The property " +:+ dquote +:+ key +:+ dquote
    +:+ " is not allowed in the style prop.".

(** The callback of [Object.entries(styleObj).forEach]; the pair is the two
    locals [outerStyle] and [innerStyle] it assigns into. *)
Definition splitStyle_entry (acc : object * object) (entry : string * value)
  : M (object * object) :=
  let '(outerStyle, innerStyle) := acc in
  let '(key, value) := entry in
  if includes rejectedStyleProps key then
    console_warn (style_warning key);; mret (outerStyle, innerStyle)
  else if includes layoutStyleProps key then
    mret (set_prop key value outerStyle, innerStyle)
  else
    mret (outerStyle, set_prop key value innerStyle).

Definition splitStyle (style : value) : M (object * object) :=
  h ← get_heap;
  if truthy style && String.eqb (typeof style) "object"
     && negb (Array_isArray h style)
  then forEach_acc splitStyle_entry (Object_entries h style) ([], [])
  else mret ([], []).

(** ** GradientButton *)

Definition restrictedTextProps : list string :=
  ["color"; "textDecorationColor"; "textShadowColor"].

Definition text_required : string := "GradientButton: text prop is required".

Definition colors_required : string :=
  "GradientButton: colors prop is required and must be an array of at least 2 colors".

Definition color_not_string (index : nat) : string :=
  "GradientButton: colors[" +:+ pretty index +:+ "] must be a string".

Definition textStyle_warning (prop : string) : string :=
  "GradientButton: " +:+ dquote +:+ prop +:+ dquote
    +:+ " in textStyle prop is not allowed.".

(** The callback of [colors.forEach]. *)
Definition check_color (color : value) (index : nat) : M unit :=
  if negb (String.eqb (typeof color) "string")
  then throw (color_not_string index)
  else mret tt.

(** The callback of [restrictedTextProps.forEach]. *)
Definition strip_text_prop (textStyle : value) (prop : string) (_ : nat)
  : M unit :=
  present ← in_object prop textStyle;
  if (present : bool) then
    console_warn (textStyle_warning prop);;
    delete_property textStyle prop
  else mret tt.

(** The content of the mask: the spinner or the label, by [loading]. *)
Definition mask_content (v : locals) : jsx :=
  if truthy (loading v) then
    JElement ActivityIndicator
      [("color", JVal (loadingColor v)); ("size", JVal (loadingSize v))] []
  else
    JElement Text
      [("style", JArray [JObject styles.buttonText; JVal (textStyle v)])]
      [JVal (text v)].

Definition mask_element (v : locals) (innerStyle : object) : jsx :=
  JElement View
    [("pointerEvents", JVal (VString "none"));
     ("style", JArray [JObject styles.maskContainer; JObject innerStyle]);
     ("collapsable", JVal (VBool false))]
    [mask_content v].

Definition gradient (v : locals) : jsx :=
  JElement LinearGradient
    [("style", StyleSheet_absoluteFill);
     ("pointerEvents", JVal (VString "none"));
     ("colors", JVal (colors v));
     ("start", start v);
     ("end", end_ v);
     ("locations", JVal (locations v));
     ("useAngle", JVal (useAngle v));
     ("angle", JVal (angle v));
     ("angleCenter", JVal (angleCenter v))]
    [].

(** The attributes of the TouchableOpacity.  The element has a child of its
    own, which takes the place of a [children] property that came in
    through the spread. *)
Definition touchable_attrs (v : locals) : list (string * jsx) :=
  delete_prop "children"
   (set_prop "style" (JObject styles.button)
    (spread (touchableProps v)
      [("onPress", JVal (onPress v));
       ("disabled", JVal (js_or (disabled v) (loading v)));
       ("activeOpacity", JVal (activeOpacity v));
       ("accessibilityRole", JVal (accessibilityRole v));
       ("accessibilityLabel", JVal (js_or (accessibilityLabel v) (text v)));
       ("accessibilityHint", JVal (accessibilityHint v))])).

(** The JSX expression the function returns. *)
Definition view (v : locals) (outerStyle innerStyle : object) : jsx :=
  JElement View [("style", JObject outerStyle)]
    [JElement TouchableOpacity (touchable_attrs v)
      [JElement View [("style", JObject styles.buttonContent)]
        [JElement MaskedView
          [("maskElement", mask_element v innerStyle);
           ("style", StyleSheet_absoluteFill);
           ("pointerEvents", JVal (VString "none"))]
          [gradient v]]]].

Definition GradientButton (props : object) : M jsx :=
  let v := destructure props in
  if negb (truthy (text v)) then throw text_required else
  h ← get_heap;
  if negb (truthy (colors v)) || negb (Array_isArray h (colors v))
     || (length (array_elements h (colors v)) <? 2)%nat
  then throw colors_required else
  forEach check_color (array_elements h (colors v));;
  (if truthy (textStyle v) && String.eqb (typeof (textStyle v)) "object"
   then forEach (strip_text_prop (textStyle v)) restrictedTextProps
   else mret tt);;
  '(outerStyle, innerStyle) ← splitStyle (style v);
  mret (view v outerStyle innerStyle).

(** ** The classification of a style key *)

Definition goes_outer (key : string) : bool :=
  negb (includes rejectedStyleProps key) && includes layoutStyleProps key.

Definition goes_inner (key : string) : bool :=
  negb (includes rejectedStyleProps key)
  && negb (includes layoutStyleProps key).

(** The warnings one pass over the entries of [o] writes, in order. *)
Definition style_warnings (o : object) : list string :=
  style_warning <$> filter (λ k, includes rejectedStyleProps k) (keys o).

(** [outerStyle] and [innerStyle] partition the entries of [o]: rejected
    keys are in neither, layout keys only in the outer object, all other keys
    only in the inner one, each with the value it has in [o]. *)
Record style_partition (o outerStyle innerStyle : object) : Prop := {
  rejected_nowhere :
    ∀ k, k ∈ rejectedStyleProps →
         get_prop k outerStyle = None ∧ get_prop k innerStyle = None;
  layout_outer_only :
    ∀ k, k ∈ layoutStyleProps →
         get_prop k outerStyle = get_prop k o ∧ get_prop k innerStyle = None;
  other_inner_only :
    ∀ k, k ∉ rejectedStyleProps → k ∉ layoutStyleProps →
         get_prop k innerStyle = get_prop k o ∧ get_prop k outerStyle = None;
  keys_disjoint :
    ∀ k, ¬ (k ∈ keys outerStyle ∧ k ∈ keys innerStyle);
  keys_cover :
    ∀ k, k ∈ keys outerStyle ∨ k ∈ keys innerStyle
         ↔ k ∈ keys o ∧ k ∉ rejectedStyleProps;
}.

(** A value that refers to a plain (non-array) object of the store. *)
Definition plain_object (h : gmap loc cell) (v : value) : Prop :=
  ∃ l o, v = VRef l ∧ h !! l = Some (CObject o).

(** The finite map an object denotes. *)
Definition to_map (o : object) : gmap string value := list_to_map o.

(** ** Validation, in the words of the checks *)

Definition is_string (v : value) : Prop := ∃ str, v = VString str.

(** None of the three [throw] statements fires. *)
Definition validates (h : gmap loc cell) (props : object) : bool :=
  truthy (prop "text" props)
  && negb (negb (truthy (prop "colors" props))
           || negb (Array_isArray h (prop "colors" props))
           || (length (array_elements h (prop "colors" props)) <? 2)%nat)
  && forallb (λ color, String.eqb (typeof color) "string")
       (array_elements h (prop "colors" props)).


(** The index [colors.forEach] stops at, counting from [index]. *)
Fixpoint first_non_string (cs : list value) (index : nat) : option nat :=
  match cs with
  | [] => None
  | c :: cs' =>
      if String.eqb (typeof c) "string"
      then first_non_string cs' (S index)
      else Some index
  end.

(** The error the validation raises, if any. *)
Definition validation_error (h : gmap loc cell) (props : object)
  : option string :=
  if negb (truthy (prop "text" props)) then Some text_required
  else if negb (truthy (prop "colors" props))
          || negb (Array_isArray h (prop "colors" props))
          || (length (array_elements h (prop "colors" props)) <? 2)%nat
  then Some colors_required
  else color_not_string
         <$> first_non_string (array_elements h (prop "colors" props)) 0.

(** ** The store after the pass over [textStyle] *)

(** An object without the three restricted keys. *)
Definition strip (o : object) : object :=
  filter (λ kv, kv.1 ∉ restrictedTextProps) o.

Definition sanitized (h : gmap loc cell) (textStyle : value)
  : gmap loc cell :=
  match textStyle with
  | VRef l =>
      match h !! l with
      | Some (CObject o) => <[l := CObject (strip o)]> h
      | _ => h
      end
  | _ => h
  end.

(** The warnings of that pass, in order. *)
Definition textStyle_warnings (o : object) : list string :=
  textStyle_warning <$> filter (λ p, has_prop p o) restrictedTextProps.

Definition after_textStyle (textStyle : value) (s : state) : state :=
  State (sanitized (heap s) textStyle)
    (console s ++ textStyle_warnings (Object_entries (heap s) textStyle))
    (frozen s).

(** The restricted key at which the pass over [textStyle] stops with a
    TypeError: the first one a frozen plain object holds. *)
Definition delete_error (s : state) (textStyle : value) : option string :=
  match textStyle with
  | VRef l =>
      match heap s !! l with
      | Some (CObject o) =>
          if bool_decide (l ∈ frozen s)
          then head (filter (λ p, has_prop p o) restrictedTextProps)
          else None
      | _ => None
      end
  | _ => None
  end.

(** [textStyle] is a frozen (or sealed) plain object that holds color,
    textDecorationColor or textShadowColor. *)
Definition undeletable (s : state) (textStyle : value) : Prop :=
  ∃ l o k,
    textStyle = VRef l ∧ heap s !! l = Some (CObject o) ∧ l ∈ frozen s
    ∧ k ∈ restrictedTextProps ∧ k ∈ keys o.


(** ** A sample render *)

Definition demo_heap : gmap loc cell :=
  <[1%positive := CArray [VString "#FF6B6B"; VString "#FFA62B"]]>
  (<[2%positive :=
       CObject [("color", VString "red"); ("fontSize", VNumber 18)]]>
  (<[3%positive :=
       CObject [("backgroundColor", VString "white");
                ("height", VNumber 50); ("borderRadius", VNumber 8)]]>
  (<[4%positive := CObject [("width", VNumber 120)]]>
  (<[5%positive :=
       CObject [("width", VNumber 120);
                ("backgroundColor", VString "white");
                ("height", VNumber 50); ("borderRadius", VNumber 8)]]>
   ∅)))).

Definition demo_state : state := State demo_heap [] ∅.

Definition demo_props : object :=
  [("text", VString "Click me");
   ("colors", VRef 1%positive);
   ("onPress", VFunction 0);
   ("style", VRef 3%positive);
   ("textStyle", VRef 2%positive);
   ("testID", VString "cta")].

Definition demo_loading_props : object :=
  [("text", VString "Click me");
   ("colors", VRef 1%positive);
   ("loading", VBool true);
   ("disabled", VBool false)].

Definition demo_layout : object := [("width", VNumber 120)].

Definition demo_merged : object :=
  [("width", VNumber 120);
   ("backgroundColor", VString "white");
   ("height", VNumber 50); ("borderRadius", VNumber 8)].

Definition demo_style : object :=
  [("backgroundColor", VString "white");
   ("height", VNumber 50); ("borderRadius", VNumber 8)].

(** ** The mask container's resolved style *)

(** The style the host framework resolves for the mask container from the
    array [[styles.maskContainer, innerStyle]], later entries overriding
    earlier ones. *)
Definition mask_style (innerStyle : object) : object :=
  assign styles.maskContainer innerStyle.

(** ** Further sample renders *)

Definition demo_heap_edge : gmap loc cell :=
  <[1%positive := CArray [VString "#FF6B6B"; VString "#FFA62B"]]>
  (<[2%positive :=
       CObject [("color", VString "red"); ("fontSize", VNumber 18)]]>
  (<[6%positive := CArray [VString "red"; VNumber 3; VNull]]>
  (<[7%positive := CArray [VRef 2%positive]]>
  (<[8%positive := CObject [("borderRadius", VNumber 8)]]>
  (<[9%positive :=
       CObject [("borderRadius", VNumber 8);
                ("backgroundColor", VString "white")]]>
   ∅))))).

Definition demo_state_edge : state := State demo_heap_edge [] ∅.

Definition demo_state_split : state :=
  State
    (<[1%positive := CObject demo_merged]>
     (<[2%positive :=
          CObject [("width", VNumber 120); ("height", VNumber 50)]]>
     (<[3%positive := CObject [("borderRadius", VNumber 8)]]> ∅)))
    [] ∅.


Definition demo_bad_color_props : object :=
  [("text", VString "Click me");
   ("colors", VRef 6%positive);
   ("textStyle", VRef 2%positive)].

Definition demo_array_textStyle_props : object :=
  [("text", VString "Click me");
   ("colors", VRef 1%positive);
   ("textStyle", VRef 7%positive)].

(** * Facts about property lists *)

Section PropsFacts.
Context {A : Type}.
Implicit Types (o : list (string * A)) (k : string) (v : A).

Lemma get_prop_None k o : get_prop k o = None ↔ k ∉ keys o.
Proof.
  induction o as [|[k' v'] o IH]; simpl.
  - split; [intros _; apply not_elem_of_nil | done].
  - destruct (decide (k = k')) as [->|Hne].
    + split; [done | intros []; left].
    + rewrite IH, not_elem_of_cons. tauto.
Qed.

Lemma get_prop_is_Some k o : is_Some (get_prop k o) ↔ k ∈ keys o.
Proof.
  rewrite <- not_eq_None_Some, get_prop_None.
  split; [apply dec_stable | auto].
Qed.

Lemma set_prop_fresh k v o : k ∉ keys o → set_prop k v o = o ++ [(k, v)].
Proof.
  induction o as [|[k' v'] o IH]; simpl; [done|].
  rewrite not_elem_of_cons. intros [Hne Hnin].
  destruct (decide (k = k')); [done|]. by rewrite IH.
Qed.

Lemma get_prop_set_prop k k' v o :
  get_prop k (set_prop k' v o)
  = if decide (k = k') then Some v else get_prop k o.
Proof.
  induction o as [|[k'' v''] o IH]; simpl.
  - by destruct (decide (k = k')).
  - destruct (decide (k' = k'')) as [->|Hne]; simpl.
    + by destruct (decide (k = k'')).
    + destruct (decide (k = k'')) as [->|?]; [|done].
      by destruct (decide (k'' = k')).
Qed.

Lemma get_prop_filter (P : string → Prop) `{!∀ k, Decision (P k)} k o :
  get_prop k (filter (λ kv, P kv.1) o)
  = if decide (P k) then get_prop k o else None.
Proof.
  induction o as [|[k' v'] o IH]; simpl.
  - by destruct (decide (P k)).
  - rewrite filter_cons. cbn [fst].
    destruct (decide (P k')) as [HP|HP]; simpl.
    + destruct (decide (k = k')) as [->|Hne]; [|apply IH].
      by destruct (decide (P k')).
    + destruct (decide (k = k')) as [->|Hne]; [|apply IH].
      rewrite IH. by destruct (decide (P k')).
Qed.

Lemma keys_filter (P : string → Prop) `{!∀ k, Decision (P k)} k o :
  k ∈ keys (filter (λ kv, P kv.1) o) ↔ k ∈ keys o ∧ P k.
Proof.
  rewrite <- !get_prop_is_Some, get_prop_filter.
  destruct (decide (P k)); [tauto|].
  split; [intros [? [=]] | tauto].
Qed.

Lemma get_prop_filter_bool (P : string → bool) k o :
  get_prop k (filter (λ kv, P kv.1) o)
  = if P k then get_prop k o else None.
Proof.
  pose proof (get_prop_filter (λ k, Is_true (P k)) k o) as ->.
  by destruct (P k).
Qed.

Lemma keys_filter_bool (P : string → bool) k o :
  k ∈ keys (filter (λ kv, P kv.1) o) ↔ k ∈ keys o ∧ P k = true.
Proof.
  rewrite <- !get_prop_is_Some, get_prop_filter_bool.
  destruct (P k); [tauto|]. split; [intros [? [=]] | intros [_ [=]]].
Qed.

Lemma keys_delete_prop k k' o :
  k ∈ keys (delete_prop k' o) ↔ k ∈ keys o ∧ k ≠ k'.
Proof. exact (keys_filter (λ k, k ≠ k') k o). Qed.

Lemma get_prop_delete_prop k k' o :
  get_prop k (delete_prop k' o)
  = if decide (k = k') then None else get_prop k o.
Proof.
  unfold delete_prop.
  pose proof (get_prop_filter (λ k, k ≠ k') k o) as ->.
  destruct (decide (k = k')) as [->|Hne].
  - by rewrite decide_False by (intros Hn; by apply Hn).
  - by rewrite decide_True.
Qed.

Lemma delete_prop_absent k o : k ∉ keys o → delete_prop k o = o.
Proof.
  unfold delete_prop. induction o as [|[k' v'] o IH]; [done|].
  change (keys ((k', v') :: o)) with (k' :: keys o).
  rewrite not_elem_of_cons. intros [Hne Hnin].
  rewrite filter_cons_True by (simpl; congruence). by rewrite IH.
Qed.

Lemma NoDup_keys_filter (P : string * A → Prop) `{∀ x, Decision (P x)} o :
  NoDup (keys o) → NoDup (keys (filter P o)).
Proof.
  unfold keys. induction o as [|[k' v'] o IH]; simpl; [done|].
  rewrite NoDup_cons. intros [Hnin Hnd].
  rewrite filter_cons. destruct (decide (P (k', v'))); simpl; [|auto].
  apply NoDup_cons. split; [|auto].
  intros Hin. apply Hnin.
  apply list_elem_of_fmap in Hin as [[k'' v''] [-> Hin]].
  apply list_elem_of_filter in Hin as [_ Hin].
  apply list_elem_of_fmap. by exists (k'', v'').
Qed.
Lemma keys_set_prop k k' v o :
  k ∈ keys (set_prop k' v o) ↔ k = k' ∨ k ∈ keys o.
Proof.
  rewrite <- !get_prop_is_Some, get_prop_set_prop.
  destruct (decide (k = k')) as [->|Hne]; [|tauto].
  split; [auto | by eexists].
Qed.

Lemma NoDup_keys_set_prop k v o :
  NoDup (keys o) → NoDup (keys (set_prop k v o)).
Proof.
  induction o as [|[k' v'] o IH]; intros Hnd.
  - cbn. apply NoDup_singleton.
  - change (keys ((k', v') :: o)) with (k' :: keys o) in Hnd.
    apply NoDup_cons in Hnd as [Hk Hnd]. cbn [set_prop].
    destruct (decide (k = k')) as [->|Hne].
    + change (keys ((k', v) :: o)) with (k' :: keys o).
      by apply NoDup_cons.
    + change (keys ((k', v') :: set_prop k v o))
        with (k' :: keys (set_prop k v o)).
      apply NoDup_cons. split; [|auto].
      rewrite keys_set_prop. intros [?|?]; [congruence | done].
Qed.

Lemma get_prop_assign_notin k (target src : list (string * A)) :
  k ∉ keys src → get_prop k (assign target src) = get_prop k target.
Proof.
  unfold assign. revert target.
  induction src as [|[k' v'] src IH]; intros target Hk; [done|].
  change (keys ((k', v') :: src)) with (k' :: keys src) in Hk.
  apply not_elem_of_cons in Hk as [Hne Hk].
  cbn [foldl fst snd]. rewrite IH by done.
  rewrite get_prop_set_prop. by rewrite decide_False.
Qed.
End PropsFacts.

Lemma to_map_lookup (o : object) (k : string) : to_map o !! k = get_prop k o.
Proof.
  unfold to_map. induction o as [|[k' v'] o IH]; simpl; [done|].
  destruct (decide (k = k')) as [->|Hne].
  - by rewrite lookup_insert_eq.
  - by rewrite lookup_insert_ne.
Qed.

(** * Running [splitStyle] *)

Lemma goes_outer_rejected k :
  includes rejectedStyleProps k = true →
  goes_outer k = false ∧ goes_inner k = false.
Proof. unfold goes_outer, goes_inner. by intros ->. Qed.

Lemma forEach_acc_cons {A S} (f : S → A → M S) x xs acc s :
  forEach_acc f (x :: xs) acc s
  = match f acc x s with
    | (Normal acc', s') => forEach_acc f xs acc' s'
    | (Throw e, s') => (Throw e, s')
    end.
Proof. reflexivity. Qed.

Lemma splitStyle_entry_run outer inner k v s :
  splitStyle_entry (outer, inner) (k, v) s
  = if includes rejectedStyleProps k
    then (Normal (outer, inner),
          State (heap s) (console s ++ [style_warning k]) (frozen s))
    else if includes layoutStyleProps k
    then (Normal (set_prop k v outer, inner), s)
    else (Normal (outer, set_prop k v inner), s).
Proof.
  unfold splitStyle_entry.
  destruct (includes rejectedStyleProps k); [done|].
  by destruct (includes layoutStyleProps k).
Qed.

Lemma keys_snoc (o : object) k v : keys (o ++ [(k, v)]) = keys o ++ [k].
Proof. unfold keys. by rewrite fmap_app. Qed.

Lemma filter_bool_cons {A} (P : A → bool) (x : A) (l : list A) :
  filter (λ y, P y) (x :: l)
  = if P x then x :: filter (λ y, P y) l else filter (λ y, P y) l.
Proof.
  destruct (P x) eqn:HP.
  - by rewrite filter_cons_True by (by rewrite HP).
  - by rewrite filter_cons_False by (rewrite HP; exact id).
Qed.

Lemma style_warnings_cons k v (es : object) :
  style_warnings ((k, v) :: es)
  = if includes rejectedStyleProps k
    then style_warning k :: style_warnings es
    else style_warnings es.
Proof.
  unfold style_warnings. change (keys ((k, v) :: es)) with (k :: keys es).
  rewrite filter_bool_cons. by destruct (includes rejectedStyleProps k).
Qed.

Lemma forEach_acc_splitStyle (entries : object) :
  ∀ (outer inner : object) (s : state),
    NoDup (keys entries) →
    (∀ k, k ∈ keys entries → (k ∉ keys outer) ∧ (k ∉ keys inner)) →
    forEach_acc splitStyle_entry entries (outer, inner) s
    = (Normal (outer ++ filter (λ kv, goes_outer kv.1) entries,
               inner ++ filter (λ kv, goes_inner kv.1) entries),
       State (heap s) (console s ++ style_warnings entries) (frozen s)).
Proof.
  induction entries as [|[k v] es IH]; intros outer inner s Hnd Hfresh.
  - simpl. unfold style_warnings. simpl. rewrite !app_nil_r. by destruct s.
  - change (keys ((k, v) :: es)) with (k :: keys es) in Hnd, Hfresh.
    apply NoDup_cons in Hnd as [Hk Hnd].
    destruct (Hfresh k) as [Hko Hki]; [apply elem_of_cons; by left|].
    assert (∀ k', k' ∈ keys es → (k' ∉ keys outer) ∧ (k' ∉ keys inner))
      as Hfresh'.
    { intros k' Hin. apply Hfresh, elem_of_cons. by right. }
    assert (∀ k', k' ∈ keys es → k' ≠ k) as Hrest.
    { intros k' Hin ->. by apply Hk. }
    rewrite forEach_acc_cons, splitStyle_entry_run, style_warnings_cons.
    rewrite !filter_bool_cons. cbn [fst].
    unfold goes_outer at 1, goes_inner at 1.
    destruct (includes rejectedStyleProps k) eqn:Hr; cbn [negb andb].
    + rewrite IH by done. cbn. by rewrite <- app_assoc.
    + destruct (includes layoutStyleProps k) eqn:Hl; cbn [negb];
        rewrite set_prop_fresh by done.
      * rewrite IH; [rewrite <- app_assoc; reflexivity|done|].
        intros k' Hin. destruct (Hfresh' k' Hin) as [Hno Hni].
        split; [|done].
        rewrite keys_snoc, elem_of_app, list_elem_of_singleton.
        intros [Ho|Heq]; [done | by apply (Hrest k')].
      * rewrite IH; [rewrite <- app_assoc; reflexivity|done|].
        intros k' Hin. destruct (Hfresh' k' Hin) as [Hno Hni].
        split; [done|].
        rewrite keys_snoc, elem_of_app, list_elem_of_singleton.
        intros [Ho|Heq]; [done | by apply (Hrest k')].
Qed.

Lemma includes_true l k : includes l k = true ↔ k ∈ l.
Proof. unfold includes. apply bool_decide_eq_true. Qed.

Lemma includes_false l k : includes l k = false ↔ k ∉ l.
Proof. unfold includes. apply bool_decide_eq_false. Qed.

Lemma layout_not_rejected k :
  includes layoutStyleProps k = true → includes rejectedStyleProps k = false.
Proof.
  rewrite includes_true. unfold layoutStyleProps. intros Hin.
  repeat (apply elem_of_cons in Hin as [->|Hin]; [by vm_compute|]).
  by apply elem_of_nil in Hin.
Qed.

(** Whatever the entries, the pass returns normally, leaves the store alone
    and writes one warning per rejected key. *)
Lemma forEach_acc_splitStyle_total (entries : object) :
  ∀ (acc : object * object) (s : state),
    ∃ acc',
      forEach_acc splitStyle_entry entries acc s
      = (Normal acc', State (heap s) (console s ++ style_warnings entries) (frozen s)).
Proof.
  induction entries as [|[k v] es IH]; intros [outer inner] s.
  - exists (outer, inner). unfold style_warnings. cbn.
    rewrite app_nil_r. by destruct s.
  - rewrite forEach_acc_cons, splitStyle_entry_run, style_warnings_cons.
    destruct (includes rejectedStyleProps k).
    + destruct (IH (outer, inner)
        (State (heap s) (console s ++ [style_warning k]) (frozen s))) as [acc' ->].
      exists acc'. cbn. by rewrite <- app_assoc.
    + destruct (includes layoutStyleProps k); apply IH.
Qed.

(** On a plain object with distinct keys the pass is two filters. *)
Lemma splitStyle_plain s l (o : object) :
  heap s !! l = Some (CObject o) →
  NoDup (keys o) →
  splitStyle (VRef l) s
  = (Normal (filter (λ kv, goes_outer kv.1) o,
             filter (λ kv, goes_inner kv.1) o),
     State (heap s) (console s ++ style_warnings o) (frozen s)).
Proof.
  intros Hl Hnd. unfold splitStyle, mbind, M_bind, bind, get_heap.
  cbn [truthy typeof Array_isArray Object_entries]. rewrite Hl. cbn.
  rewrite forEach_acc_splitStyle; [done|done|].
  intros k _. split; apply not_elem_of_nil.
Qed.

Lemma splitStyle_total v s :
  ∃ outerStyle innerStyle warnings,
    splitStyle v s
    = (Normal (outerStyle, innerStyle),
       State (heap s) (console s ++ warnings) (frozen s)).
Proof.
  unfold splitStyle, mbind, M_bind, bind, get_heap.
  destruct (_ && _).
  - destruct (forEach_acc_splitStyle_total
      (Object_entries (heap s) v) ([], []) s) as [[outer inner] ->].
    by exists outer, inner, (style_warnings (Object_entries (heap s) v)).
  - exists [], [], []. cbn. rewrite app_nil_r. by destruct s.
Qed.

(** * Running [GradientButton] *)

Lemma forEach_from_cons {A} (f : A → nat → M unit) x xs i s :
  forEach_from f (x :: xs) i s
  = match f x i s with
    | (Normal _, s') => forEach_from f xs (S i) s'
    | (Throw e, s') => (Throw e, s')
    end.
Proof. reflexivity. Qed.

Lemma forEach_check_color cs :
  ∀ i s,
    forEach_from check_color cs i s
    = match first_non_string cs i with
      | Some j => (Throw (color_not_string j), s)
      | None => (Normal tt, s)
      end.
Proof.
  induction cs as [|c cs IH]; intros i s; [done|].
  rewrite forEach_from_cons. unfold check_color. cbn [first_non_string].
  destruct (String.eqb (typeof c) "string"); [apply IH | done].
Qed.

Lemma filter_ext_in {A} (P1 P2 : A → Prop)
    `{!∀ x, Decision (P1 x), !∀ x, Decision (P2 x)} (l : list A) :
  (∀ x, x ∈ l → P1 x ↔ P2 x) → filter P1 l = filter P2 l.
Proof.
  induction l as [|x l IH]; intros Hext; [done|].
  assert (filter P1 l = filter P2 l) as Hl.
  { apply IH. intros y Hy. apply Hext, elem_of_cons. by right. }
  assert (P1 x ↔ P2 x) as Hx by (apply Hext, elem_of_cons; by left).
  destruct (decide (P1 x)) as [H1|H1].
  - rewrite !filter_cons_True by tauto. by rewrite Hl.
  - rewrite !filter_cons_False by tauto. done.
Qed.

Lemma filter_all_in {A} (P : A → Prop) `{!∀ x, Decision (P x)} (l : list A) :
  (∀ x, x ∈ l → P x) → filter P l = l.
Proof.
  induction l as [|x l IH]; intros Hall; [done|].
  rewrite filter_cons_True by (apply Hall, elem_of_cons; by left).
  rewrite IH; [done|]. intros y Hy. apply Hall, elem_of_cons. by right.
Qed.

Lemma strip_text_prop_run l (o : object) p i s :
  heap s !! l = Some (CObject o) →
  l ∉ frozen s ∨ has_prop p o = false →
  strip_text_prop (VRef l) p i s
  = (Normal tt,
     State (<[l := CObject (delete_prop p o)]> (heap s))
       (console s ++ if has_prop p o then [textStyle_warning p] else [])
       (frozen s)).
Proof.
  intros Hl Hok. unfold strip_text_prop, mbind, M_bind, bind, in_object.
  cbn [Object_entries]. rewrite Hl.
  destruct (has_prop p o) eqn:Hp.
  - destruct Hok as [Hnf|?]; [|done].
    unfold console_warn, delete_property. cbn. rewrite Hl, Hp.
    by rewrite bool_decide_false.
  - apply bool_decide_eq_false in Hp.
    rewrite delete_prop_absent, insert_id, app_nil_r by done.
    by destruct s.
Qed.

Lemma forEach_strip l ps :
  ∀ i s (o : object),
    NoDup ps →
    heap s !! l = Some (CObject o) →
    l ∉ frozen s ∨ (∀ q, q ∈ ps → has_prop q o = false) →
    forEach_from (strip_text_prop (VRef l)) ps i s
    = (Normal tt,
       State (<[l := CObject (filter (λ kv, kv.1 ∉ ps) o)]> (heap s))
         (console s
            ++ (textStyle_warning <$> filter (λ p, has_prop p o) ps))
         (frozen s)).
Proof.
  induction ps as [|p ps IH]; intros i s o Hnd Hl Hok.
  - cbn. rewrite app_nil_r.
    rewrite filter_all_in by (intros; apply not_elem_of_nil).
    rewrite insert_id by done. by destruct s.
  - apply NoDup_cons in Hnd as [Hp Hnd].
    rewrite forEach_from_cons, (strip_text_prop_run l o); [|done|].
    2:{ destruct Hok as [?|Hall]; [by left|].
        right. apply Hall, elem_of_cons. by left. }
    rewrite (IH _ _ (delete_prop p o)); [|done|apply lookup_insert_eq|].
    2:{ cbn [frozen]. destruct Hok as [?|Hall]; [by left|]. right.
        intros q Hq. specialize (Hall q). unfold has_prop in *.
        rewrite bool_decide_eq_false in Hall |- *.
        rewrite keys_delete_prop. intros [Hin _]. apply Hall; [|done].
        apply elem_of_cons. by right. }
    cbn [heap console frozen]. rewrite insert_insert_eq.
    assert (filter (λ kv, kv.1 ∉ ps) (delete_prop p o)
            = filter (λ kv, kv.1 ∉ p :: ps) o) as ->.
    { unfold delete_prop. rewrite list_filter_filter.
      apply list_filter_iff. intros [k v]. cbn. rewrite not_elem_of_cons.
      tauto. }
    assert (filter (λ q, has_prop q (delete_prop p o)) ps
            = filter (λ q, has_prop q o) ps) as ->.
    { apply filter_ext_in. intros q Hq. unfold has_prop.
      rewrite !bool_decide_spec, keys_delete_prop.
      split; [tauto|]. intros Hin. split; [done|]. by intros ->. }
    rewrite <- app_assoc, (filter_cons _ p).
    destruct (has_prop p o); reflexivity.
Qed.

Lemma NoDup_restrictedTextProps : NoDup restrictedTextProps.
Proof.
  apply (bool_decide_unpack _). by vm_compute.
Qed.

Lemma strip_text_prop_absent ts p i s :
  has_prop p (Object_entries (heap s) ts) = false →
  strip_text_prop ts p i s = (Normal tt, s).
Proof.
  intros Hp. unfold strip_text_prop, mbind, M_bind, bind, in_object.
  by rewrite Hp.
Qed.

Lemma forEach_strip_absent ts ps :
  ∀ i s,
    Object_entries (heap s) ts = [] →
    forEach_from (strip_text_prop ts) ps i s = (Normal tt, s).
Proof.
  induction ps as [|p ps IH]; intros i s He; [done|].
  rewrite forEach_from_cons, strip_text_prop_absent by (by rewrite He).
  by apply IH.
Qed.

Lemma plain_object_cases h v :
  plain_object h v
  ∨ (¬ plain_object h v ∧ Object_entries h v = [] ∧ sanitized h v = h).
Proof.
  destruct v as [| | | | | |l];
    try (right; split; [by intros (? & ? & [=] & _) | done]).
  destruct (h !! l) as [[o|a]|] eqn:Hl.
  - left. by exists l, o.
  - right. cbn. rewrite Hl. split; [|done].
    intros (l' & o' & [= <-] & Hl'). congruence.
  - right. cbn. rewrite Hl. split; [|done].
    intros (l' & o' & [= <-] & Hl'). congruence.
Qed.

(** On a frozen object the pass stops at the first restricted key the
    object holds, after the warning for it. *)
Lemma forEach_strip_frozen l ps :
  ∀ i s (o : object),
    heap s !! l = Some (CObject o) →
    l ∈ frozen s →
    forEach_from (strip_text_prop (VRef l)) ps i s
    = match head (filter (λ p, has_prop p o) ps) with
      | Some p =>
          (Throw (cannot_delete p),
           State (heap s) (console s ++ [textStyle_warning p]) (frozen s))
      | None => (Normal tt, s)
      end.
Proof.
  induction ps as [|p ps IH]; intros i s o Hl Hf; [done|].
  rewrite forEach_from_cons, filter_cons.
  destruct (has_prop p o) eqn:Hp.
  - rewrite decide_True by done. cbn [head].
    unfold strip_text_prop, mbind, M_bind, bind, in_object.
    cbn [Object_entries]. rewrite Hl, Hp.
    unfold console_warn, delete_property. cbn. rewrite Hl, Hp.
    by rewrite bool_decide_true.
  - rewrite decide_False by exact id.
    rewrite strip_text_prop_absent by (cbn; by rewrite Hl).
    by apply IH.
Qed.

Lemma delete_error_None_plain s l (o : object) :
  heap s !! l = Some (CObject o) →
  delete_error s (VRef l) = None →
  l ∉ frozen s ∨ (∀ q, q ∈ restrictedTextProps → has_prop q o = false).
Proof.
  intros Hl. unfold delete_error. rewrite Hl.
  destruct (decide (l ∈ frozen s)) as [Hf|Hf]; [|by left].
  rewrite bool_decide_true by done. intros Hh%head_None. right.
  intros q Hq. destruct (has_prop q o) eqn:Hp; [|done].
  exfalso. apply (filter_nil_not_elem_of _ _ q Hh); [|done].
  rewrite Hp. exact I.
Qed.

(** The pass over [textStyle] when no deletion is refused. *)
Lemma textStyle_pass_run ts s :
  delete_error s ts = None →
  (if truthy ts && String.eqb (typeof ts) "object"
   then forEach (strip_text_prop ts) restrictedTextProps
   else mret tt) s
  = (Normal tt, after_textStyle ts s).
Proof.
  intros Hde.
  destruct (plain_object_cases (heap s) ts)
    as [(l & o & -> & Hl)|(Hnp & He & Hh)].
  - change (truthy (VRef l) && String.eqb (typeof (VRef l)) "object")
      with true.
    unfold forEach.
    rewrite (forEach_strip l _ _ _ o);
      [|apply NoDup_restrictedTextProps|done
       |by apply delete_error_None_plain].
    unfold after_textStyle, sanitized, textStyle_warnings, strip.
    cbn [Object_entries]. by rewrite Hl.
  - assert (after_textStyle ts s = s) as ->.
    { unfold after_textStyle. rewrite He, Hh.
      cbn. rewrite app_nil_r. by destruct s. }
    destruct (_ && _); [|done].
    by apply forEach_strip_absent.
Qed.

(** The pass over [textStyle] when a deletion is refused. *)
Lemma textStyle_pass_throw ts s p :
  delete_error s ts = Some p →
  (if truthy ts && String.eqb (typeof ts) "object"
   then forEach (strip_text_prop ts) restrictedTextProps
   else mret tt) s
  = (Throw (cannot_delete p),
     State (heap s) (console s ++ [textStyle_warning p]) (frozen s)).
Proof.
  unfold delete_error.
  destruct ts as [| | | | | |l]; try done.
  destruct (heap s !! l) as [[o|a]|] eqn:Hl; try done.
  destruct (decide (l ∈ frozen s)) as [Hf|Hf].
  - rewrite bool_decide_true by done. intros Hh.
    change (truthy (VRef l) && String.eqb (typeof (VRef l)) "object")
      with true.
    unfold forEach. by rewrite (forEach_strip_frozen l _ _ _ o), Hh.
  - by rewrite bool_decide_false.
Qed.

Lemma first_non_string_None cs :
  ∀ i, first_non_string cs i = None
       ↔ forallb (λ c, String.eqb (typeof c) "string") cs = true.
Proof.
  induction cs as [|c cs IH]; intros i; cbn; [done|].
  destruct (String.eqb (typeof c) "string"); cbn; [apply IH | done].
Qed.

Lemma validation_error_None h props :
  validation_error h props = None ↔ validates h props = true.
Proof.
  unfold validation_error, validates.
  destruct (truthy (prop "text" props)); cbn; [|done].
  destruct (_ || _); cbn; [done|].
  rewrite fmap_None. apply first_non_string_None.
Qed.

(** The whole function: the validation decides between an exception, with
    the state untouched, and the two passes; the pass over [textStyle] stops
    with a TypeError when a deletion is refused, and otherwise the view is
    built. *)
Lemma GradientButton_run props s :
  GradientButton props s
  = match validation_error (heap s) props with
    | Some e => (Throw e, s)
    | None =>
        let v := destructure props in
        match delete_error s (textStyle v) with
        | Some p =>
            (Throw (cannot_delete p),
             State (heap s) (console s ++ [textStyle_warning p]) (frozen s))
        | None =>
            match splitStyle (style v) (after_textStyle (textStyle v) s) with
            | (Normal (outerStyle, innerStyle), s') =>
                (Normal (view v outerStyle innerStyle), s')
            | (Throw e, s') => (Throw e, s')
            end
        end
    end.
Proof.
  unfold GradientButton, validation_error. cbn [destructure text colors].
  destruct (negb (truthy (prop "text" props))); [done|].
  unfold mbind at 1, M_bind at 1, bind at 1, get_heap. cbn [fst snd].
  destruct (_ || _); [done|].
  unfold mbind at 1, M_bind at 1, bind at 1, forEach.
  rewrite forEach_check_color.
  destruct (first_non_string _ 0); [done|]. cbn [fmap option_fmap option_map].
  unfold mbind at 1, M_bind at 1, bind at 1.
  cbn [textStyle style destructure].
  destruct (delete_error s (prop "textStyle" props)) as [p|] eqn:Hde.
  - fold (forEach (strip_text_prop (prop "textStyle" props))
            restrictedTextProps).
    by rewrite (textStyle_pass_throw _ _ p).
  - fold (forEach (strip_text_prop (prop "textStyle" props))
            restrictedTextProps).
    rewrite textStyle_pass_run by done.
    unfold mbind, M_bind, bind.
    destruct (splitStyle _ _) as [[[outer inner]|e] s']; done.
Qed.

(** * Properties of [splitStyle] *)

Lemma NoDup_demo_style : NoDup (keys demo_style).
Proof. apply (bool_decide_unpack _). by vm_compute. Qed.

(** C1.  For a plain object passed as [style], [splitStyle] returns two
    objects that partition its properties: a rejected key (backgroundColor,
    borderColor, shadowColor, color) is in neither, a key of the layout set
    is only in [outerStyle], every other key is only in [innerStyle], each
    kept key has its original value, and the two key sets are disjoint with
    union the keys of the input minus the rejected ones. *)
Theorem splitStyle_partitions (s : state) (l : loc) (o : object) :
  heap s !! l = Some (CObject o) →
  NoDup (keys o) →
  ∃ outerStyle innerStyle s',
    splitStyle (VRef l) s = (Normal (outerStyle, innerStyle), s')
    ∧ style_partition o outerStyle innerStyle.
Proof.
  intros Hl Hnd. eexists _, _, _. split; [by apply splitStyle_plain|].
  assert (∀ k, get_prop k (filter (λ kv, goes_outer kv.1) o)
               = if goes_outer k then get_prop k o else None) as Houter
    by (intros; apply get_prop_filter_bool).
  assert (∀ k, get_prop k (filter (λ kv, goes_inner kv.1) o)
               = if goes_inner k then get_prop k o else None) as Hinner
    by (intros; apply get_prop_filter_bool).
  assert (∀ k, k ∈ rejectedStyleProps →
               goes_outer k = false ∧ goes_inner k = false) as Hrej
    by (intros k Hk; by apply goes_outer_rejected, includes_true).
  assert (∀ k, k ∈ layoutStyleProps →
               goes_outer k = true ∧ goes_inner k = false) as Hlay.
  { intros k Hk%includes_true. unfold goes_outer, goes_inner.
    by rewrite (layout_not_rejected k Hk), Hk. }
  assert (∀ k, k ∉ rejectedStyleProps → k ∉ layoutStyleProps →
               goes_outer k = false ∧ goes_inner k = true) as Hoth.
  { intros k Hr%includes_false Hk%includes_false.
    unfold goes_outer, goes_inner. by rewrite Hr, Hk. }
  split.
  - intros k Hk. destruct (Hrej k Hk) as [Ho Hi].
    by rewrite Houter, Hinner, Ho, Hi.
  - intros k Hk. destruct (Hlay k Hk) as [Ho Hi].
    by rewrite Houter, Hinner, Ho, Hi.
  - intros k Hr Hk. destruct (Hoth k Hr Hk) as [Ho Hi].
    by rewrite Houter, Hinner, Ho, Hi.
  - intros k. rewrite <- !get_prop_is_Some, Houter, Hinner.
    unfold goes_outer, goes_inner.
    destruct (includes rejectedStyleProps k), (includes layoutStyleProps k);
      cbn; intros [[? ?] [? ?]]; done.
  - intros k. rewrite <- !get_prop_is_Some, Houter, Hinner.
    rewrite <- includes_false. unfold goes_outer, goes_inner.
    destruct (includes rejectedStyleProps k), (includes layoutStyleProps k);
      cbn; rewrite <- ?not_eq_None_Some; intuition congruence.
Qed.

(** Both results are objects again: their keys are distinct. *)
Lemma splitStyle_distinct_keys (s : state) (l : loc) (o : object) :
  heap s !! l = Some (CObject o) →
  NoDup (keys o) →
  ∃ outerStyle innerStyle s',
    splitStyle (VRef l) s = (Normal (outerStyle, innerStyle), s')
    ∧ NoDup (keys outerStyle) ∧ NoDup (keys innerStyle).
Proof.
  intros Hl Hnd. eexists _, _, _. split; [by apply splitStyle_plain|].
  split; by apply NoDup_keys_filter.
Qed.

Lemma splitStyle_partitions_witness :
  heap demo_state !! 3%positive = Some (CObject demo_style)
  ∧ NoDup (keys demo_style)
  ∧ ∃ outerStyle innerStyle s',
      splitStyle (VRef 3%positive) demo_state
      = (Normal (outerStyle, innerStyle), s')
      ∧ style_partition demo_style outerStyle innerStyle.
Proof.
  split; [reflexivity|]. split; [apply NoDup_demo_style|].
  apply (splitStyle_partitions demo_state 3%positive demo_style);
    [reflexivity | apply NoDup_demo_style].
Defined.


Lemma to_map_filter_bool (P : string → bool) (o : object) k :
  to_map (filter (λ kv, P kv.1) o) !! k
  = if P k then to_map o !! k else None.
Proof. by rewrite !to_map_lookup, get_prop_filter_bool. Qed.

(** Splitting commutes with a union of the maps the objects denote. *)
Lemma filter_bool_union (P : string → bool) (a b m : object) :
  to_map m = to_map a ∪ to_map b →
  to_map (filter (λ kv, P kv.1) m)
  = to_map (filter (λ kv, P kv.1) a) ∪ to_map (filter (λ kv, P kv.1) b).
Proof.
  intros Hm. apply map_eq. intros k.
  rewrite lookup_union, !to_map_filter_bool, Hm, lookup_union.
  by destruct (P k).
Qed.

(** The spread of two objects with disjoint keys denotes the union of their
    maps, so it is one of the merged objects the next theorem speaks of. *)
Lemma to_map_assign (b : object) :
  ∀ a : object,
    NoDup (keys b) → to_map (assign a b) = to_map b ∪ to_map a.
Proof.
  unfold assign.
  induction b as [|[k' v'] b IH]; intros a Hnd.
  - cbn [foldl]. change (to_map []) with (∅ : gmap string value).
    by rewrite (left_id_L ∅ (∪)).
  - change (keys ((k', v') :: b)) with (k' :: keys b) in Hnd.
    apply NoDup_cons in Hnd as [Hk Hnd].
    cbn [foldl fst snd]. rewrite IH by done.
    apply map_eq. intros k.
    rewrite !lookup_union, !to_map_lookup, get_prop_set_prop.
    cbn [get_prop].
    destruct (decide (k = k')) as [->|Hne]; [|done].
    apply get_prop_None in Hk. rewrite Hk.
    by destruct (get_prop k' a).
Qed.

Lemma spread_merges (a b : object) :
  NoDup (keys b) → keys a ## keys b →
  to_map (assign a b) = to_map a ∪ to_map b.
Proof.
  intros Hnd Hdisj. rewrite to_map_assign by done.
  apply map_union_comm, map_disjoint_spec. intros k x y Hb Ha.
  rewrite to_map_lookup in Ha, Hb.
  apply (Hdisj k); apply get_prop_is_Some; by eexists.
Qed.

(** C5.  [splitStyle] classifies each property on its own: for two plain
    style objects with disjoint key sets and an object that merges them,
    the outer (inner) style of the merged object is the key-wise union of
    the outer (inner) styles of the two. *)
Theorem splitStyle_union (s : state) (la lb lm : loc) (a b m : object) :
  heap s !! la = Some (CObject a) →
  heap s !! lb = Some (CObject b) →
  heap s !! lm = Some (CObject m) →
  NoDup (keys a) → NoDup (keys b) → NoDup (keys m) →
  keys a ## keys b →
  to_map m = to_map a ∪ to_map b →
  ∃ outer_a inner_a sa outer_b inner_b sb outer_m inner_m sm,
    splitStyle (VRef la) s = (Normal (outer_a, inner_a), sa)
    ∧ splitStyle (VRef lb) s = (Normal (outer_b, inner_b), sb)
    ∧ splitStyle (VRef lm) s = (Normal (outer_m, inner_m), sm)
    ∧ to_map outer_m = to_map outer_a ∪ to_map outer_b
    ∧ to_map inner_m = to_map inner_a ∪ to_map inner_b
    ∧ keys outer_a ## keys outer_b
    ∧ keys inner_a ## keys inner_b.
Proof.
  intros Ha Hb Hm Hnda Hndb Hndm Hdisj Hunion.
  eexists _, _, _, _, _, _, _, _, _.
  split; [by apply splitStyle_plain|].
  split; [by apply splitStyle_plain|].
  split; [by apply splitStyle_plain|].
  split; [by apply filter_bool_union|].
  split; [by apply filter_bool_union|].
  split; intros k Hka Hkb.
  - apply keys_filter_bool in Hka as [Hka _].
    apply keys_filter_bool in Hkb as [Hkb _]. by apply (Hdisj k).
  - apply keys_filter_bool in Hka as [Hka _].
    apply keys_filter_bool in Hkb as [Hkb _]. by apply (Hdisj k).
Qed.

Lemma NoDup_demo_layout : NoDup (keys demo_layout).
Proof. apply (bool_decide_unpack _). by vm_compute. Qed.

Lemma NoDup_demo_merged : NoDup (keys demo_merged).
Proof. apply (bool_decide_unpack _). by vm_compute. Qed.

Lemma demo_layout_style_disjoint : keys demo_layout ## keys demo_style.
Proof.
  intros k Hk%list_elem_of_singleton. subst k.
  apply (bool_decide_unpack _). by vm_compute.
Qed.

Lemma splitStyle_union_witness :
  ∃ outer_a inner_a sa outer_b inner_b sb outer_m inner_m sm,
    splitStyle (VRef 4%positive) demo_state = (Normal (outer_a, inner_a), sa)
    ∧ splitStyle (VRef 3%positive) demo_state
      = (Normal (outer_b, inner_b), sb)
    ∧ splitStyle (VRef 5%positive) demo_state
      = (Normal (outer_m, inner_m), sm)
    ∧ to_map outer_m = to_map outer_a ∪ to_map outer_b
    ∧ to_map inner_m = to_map inner_a ∪ to_map inner_b
    ∧ keys outer_a ## keys outer_b
    ∧ keys inner_a ## keys inner_b.
Proof.
  apply (splitStyle_union demo_state 4%positive 3%positive 5%positive
           demo_layout demo_style demo_merged).
  - reflexivity.
  - reflexivity.
  - reflexivity.
  - apply NoDup_demo_layout.
  - apply NoDup_demo_style.
  - apply NoDup_demo_merged.
  - apply demo_layout_style_disjoint.
  - vm_compute. reflexivity.
Defined.

(** C8.  When [style] is an array, or any value that is not a plain object,
    [splitStyle] returns two empty objects and leaves the state as it was:
    no entry of the caller reaches either style and the console receives no
    warning. *)
Theorem splitStyle_non_object (v : value) (s : state) :
  ¬ plain_object (heap s) v →
  splitStyle v s = (Normal ([], []), s).
Proof.
  intros Hnp. unfold splitStyle, mbind, M_bind, bind, get_heap.
  destruct v as [| |b|x|str|f|l]; cbn; try done.
  - by destruct b.
  - by destruct (negb _).
  - by destruct (negb _).
  - destruct (heap s !! l) as [[o|a]|] eqn:Hl; cbn; [|done|done].
    destruct Hnp. by exists l, o.
Qed.

Lemma demo_colors_not_plain : ¬ plain_object (heap demo_state) (VRef 1%positive).
Proof. intros (l & o & [= <-] & Hl). vm_compute in Hl. discriminate. Qed.

Lemma splitStyle_non_object_witness :
  ¬ plain_object (heap demo_state) (VRef 1%positive)
  ∧ splitStyle (VRef 1%positive) demo_state = (Normal ([], []), demo_state).
Proof.
  split; [apply demo_colors_not_plain|].
  apply (splitStyle_non_object (VRef 1%positive) demo_state).
  apply demo_colors_not_plain.
Defined.

(** * Properties of the validation *)

Lemma typeof_string c : String.eqb (typeof c) "string" = true ↔ is_string c.
Proof.
  unfold is_string. destruct c; cbn; split; try discriminate;
    try (by intros [? [=]]).
  by eexists.
Qed.

Lemma forallb_string_false cs :
  forallb (λ c, String.eqb (typeof c) "string") cs = false
  ↔ Exists (λ c, ¬ is_string c) cs.
Proof.
  induction cs as [|c cs IH]; cbn.
  - split; [discriminate | by intros ?%Exists_nil].
  - rewrite Exists_cons, <- IH, <- typeof_string.
    destruct (String.eqb (typeof c) "string"); cbn.
    + split; [by right | by intros [[]|]].
    + split; [by left | done].
Qed.




(** For a [text] of its declared type, a string that may be absent, falsy
    means absent or empty. *)
Lemma falsy_text v :
  v = VUndefined ∨ is_string v →
  truthy v = false ↔ v = VUndefined ∨ v = VString "".
Proof.
  intros [->|[str ->]]; [by split; [left|]|].
  destruct str; cbn; split; try done; try (by right).
  by intros [|].
Qed.

(** The pass over [textStyle] is refused exactly on a frozen plain object
    that holds a restricted key. *)
Lemma delete_error_None_iff s ts :
  delete_error s ts = None ↔ ¬ undeletable s ts.
Proof.
  unfold delete_error, undeletable. split.
  - intros Hde (l & o & k & -> & Hl & Hf & Hk & Hin).
    rewrite Hl, bool_decide_true in Hde by done.
    apply head_None in Hde.
    apply (filter_nil_not_elem_of _ _ k Hde); [|done].
    unfold has_prop. by apply bool_decide_spec.
  - intros Hnot. destruct ts as [| | | | | |l]; try done.
    destruct (heap s !! l) as [[o|a]|] eqn:Hl; try done.
    destruct (decide (l ∈ frozen s)) as [Hf|Hf];
      [rewrite bool_decide_true by done | by rewrite bool_decide_false].
    destruct (filter _ restrictedTextProps) as [|k ks] eqn:Hfilter; [done|].
    destruct Hnot. exists l, o, k.
    assert (k ∈ filter (λ p, has_prop p o) restrictedTextProps) as Hk
      by (rewrite Hfilter; left).
    apply list_elem_of_filter in Hk as [Hp Hk].
    unfold has_prop in Hp. apply bool_decide_spec in Hp. done.
Qed.


(** A valid property bag whose [textStyle] can be stripped renders: the view
    is built from the two styles [splitStyle] returns on the state the
    [textStyle] pass leaves. *)
Lemma GradientButton_valid props s :
  validates (heap s) props = true →
  ¬ undeletable s (prop "textStyle" props) →
  ∃ outerStyle innerStyle warnings,
    splitStyle (prop "style" props)
      (after_textStyle (prop "textStyle" props) s)
    = (Normal (outerStyle, innerStyle),
       State (sanitized (heap s) (prop "textStyle" props))
         (console (after_textStyle (prop "textStyle" props) s) ++ warnings)
         (frozen s))
    ∧ GradientButton props s
      = (Normal (view (destructure props) outerStyle innerStyle),
         State (sanitized (heap s) (prop "textStyle" props))
           (console (after_textStyle (prop "textStyle" props) s)
              ++ warnings)
           (frozen s)).
Proof.
  intros Hv%validation_error_None Hde%delete_error_None_iff.
  rewrite GradientButton_run, Hv.
  cbn [destructure style textStyle]. rewrite Hde.
  destruct (splitStyle_total (prop "style" props)
              (after_textStyle (prop "textStyle" props) s))
    as (outer & inner & ws & Hs).
  exists outer, inner, ws. by rewrite Hs.
Qed.





(** * Properties of the [textStyle] pass *)

(** Where nothing is frozen every deletion succeeds. *)
Lemma unfrozen_deletable s ts : frozen s = ∅ → ¬ undeletable s ts.
Proof.
  intros He (l & o & k & _ & _ & Hf & _). rewrite He in Hf.
  by apply not_elem_of_empty in Hf.
Qed.

Lemma strip_keys (o : object) k :
  k ∈ keys (strip o) ↔ k ∈ keys o ∧ k ∉ restrictedTextProps.
Proof. exact (keys_filter (λ k, k ∉ restrictedTextProps) k o). Qed.



Lemma mask_contents_view v outerStyle innerStyle :
  mask_contents (view v outerStyle innerStyle) = [mask_content v].
Proof. reflexivity. Qed.


Lemma demo_validates : validates (heap demo_state) demo_props = true.
Proof. reflexivity. Qed.


(** * Properties of the returned view *)

Lemma get_prop_spread_notin k (rest : object) :
  ∀ base, k ∉ keys rest → get_prop k (spread rest base) = get_prop k base.
Proof.
  unfold spread. induction rest as [|[k' v'] rest IH]; intros base Hk; [done|].
  change (keys ((k', v') :: rest)) with (k' :: keys rest) in Hk.
  apply not_elem_of_cons in Hk as [Hne Hk].
  cbn [foldl fst snd]. rewrite IH by done.
  rewrite get_prop_set_prop. by rewrite decide_False.
Qed.

Lemma touchableProps_keys props k :
  k ∈ destructured → k ∉ keys (touchableProps (destructure props)).
Proof.
  intros Hk Hin. cbn [touchableProps destructure] in Hin.
  by destruct (proj1 (keys_filter (λ k, k ∉ destructured) k props) Hin).
Qed.

(** An attribute the pattern names, other than [style], reaches the
    TouchableOpacity as the opening tag writes it: the spread cannot
    override it. *)
Lemma touchable_attr props k :
  k ∈ destructured → k ≠ "style" →
  get_prop k (touchable_attrs (destructure props))
  = get_prop k
      [("onPress", JVal (onPress (destructure props)));
       ("disabled",
        JVal (js_or (disabled (destructure props))
                (loading (destructure props))));
       ("activeOpacity", JVal (activeOpacity (destructure props)));
       ("accessibilityRole", JVal (accessibilityRole (destructure props)));
       ("accessibilityLabel",
        JVal (js_or (accessibilityLabel (destructure props))
                (text (destructure props))));
       ("accessibilityHint", JVal (accessibilityHint (destructure props)))].
Proof.
  intros Hk Hstyle. unfold touchable_attrs.
  assert (k ≠ "children") as Hchildren.
  { intros ->. revert Hk. apply (bool_decide_unpack _). by vm_compute. }
  rewrite get_prop_delete_prop, decide_False by done.
  rewrite get_prop_set_prop, decide_False by done.
  by apply get_prop_spread_notin, touchableProps_keys.
Qed.

Lemma touchable_view v outerStyle innerStyle :
  touchable (view v outerStyle innerStyle)
  = Some (JElement TouchableOpacity (touchable_attrs v)
            [JElement View [("style", JObject styles.buttonContent)]
               [JElement MaskedView
                  [("maskElement", mask_element v innerStyle);
                   ("style", StyleSheet_absoluteFill);
                   ("pointerEvents", JVal (VString "none"))]
                  [gradient v]]]).
Proof. reflexivity. Qed.

Lemma Forall_set_prop {A} (P : string * A → Prop) k v (o : list (string * A)) :
  P (k, v) → Forall P o → Forall P (set_prop k v o).
Proof.
  intros Hkv. induction 1 as [|[k' v'] o Hx Ho IH]; cbn.
  - by apply Forall_singleton.
  - destruct (decide (k = k')); apply Forall_cons; auto.
Qed.

Lemma Forall_spread (P : string * jsx → Prop) (rest : object) :
  ∀ base,
    (∀ k v, P (k, JVal v)) → Forall P base → Forall P (spread rest base).
Proof.
  unfold spread. induction rest as [|[k v] rest IH]; intros base HP Hb;
    [done|].
  cbn [foldl fst snd]. apply IH; [done|]. by apply Forall_set_prop.
Qed.

Lemma count_attrs_zero c (attrs : list (string * jsx)) :
  Forall (λ kv, count c kv.2 = 0) attrs →
  sum_list (map (λ kv, let '(_, a) := kv in count c a) attrs) = 0.
Proof.
  induction 1 as [|[k a] attrs Hx Ha IH]; [done|].
  cbn [map sum_list]. cbn [snd] in Hx. by rewrite Hx, IH.
Qed.

(** No attribute of the TouchableOpacity is an element. *)
Lemma touchable_attrs_count c v :
  sum_list (map (λ kv, let '(_, a) := kv in count c a) (touchable_attrs v))
  = 0.
Proof.
  apply count_attrs_zero. unfold touchable_attrs, delete_prop.
  apply Forall_forall. intros kv [_ Hin]%list_elem_of_filter. revert kv Hin.
  apply Forall_forall.
  apply Forall_set_prop; [done|].
  apply Forall_spread; [done|].
  repeat (apply Forall_cons; split; [done|]). apply Forall_nil_2.
Qed.

Lemma count_prop_or_object c k d props : count c (prop_or_object k d props) = 0.
Proof. unfold prop_or_object. by destruct (prop k props). Qed.

(** The label and the spinner occur in the mask and nowhere else. *)
Lemma count_view c props outerStyle innerStyle :
  c = Text ∨ c = ActivityIndicator →
  count c (view (destructure props) outerStyle innerStyle)
  = count c (mask_content (destructure props)).
Proof.
  intros Hc. unfold view, mask_element, gradient.
  cbn [count map sum_list]. rewrite touchable_attrs_count.
  cbn [start end_ destructure]. rewrite !count_prop_or_object.
  destruct Hc as [-> | ->]; rewrite !decide_False by done;
    unfold id, StyleSheet_absoluteFill; cbn [count]; lia.
Qed.

Lemma count_mask_content v :
  count Text (mask_content v) + count ActivityIndicator (mask_content v) = 1.
Proof. unfold mask_content. by destruct (truthy (loading v)). Qed.

(** C6.  A render that passes the validation puts exactly one node in the
    mask: an ActivityIndicator with [loadingColor] (default #FFFFFF) and
    [loadingSize] (default small) when [loading] holds, and otherwise a Text
    showing [text].  The whole tree holds one Text or one ActivityIndicator,
    never both.
    The [textStyle] is one whose entries can be deleted. *)
Theorem mask_has_one_content (props : object) (s : state) :
  validates (heap s) props = true →
  ¬ undeletable s (prop "textStyle" props) →
  ∃ tree s' content,
    GradientButton props s = (Normal tree, s')
    ∧ mask_contents tree = [content]
    ∧ (truthy (prop_or "loading" (VBool false) props) = true →
       content
       = JElement ActivityIndicator
           [("color", JVal (prop_or "loadingColor" (VString "#FFFFFF") props));
            ("size", JVal (prop_or "loadingSize" (VString "small") props))]
           [])
    ∧ (truthy (prop_or "loading" (VBool false) props) = false →
       content
       = JElement Text
           [("style",
             JArray [JObject styles.buttonText;
                     JVal (prop "textStyle" props)])]
           [JVal (prop "text" props)])
    ∧ count Text tree + count ActivityIndicator tree = 1.
Proof.
  intros Hv Hdel.
  destruct (GradientButton_valid props s Hv Hdel) as (outer & inner & ws & _ & ->).
  eexists _, _, _. split; [done|].
  split; [apply mask_contents_view|].
  split; [|split].
  - unfold mask_content. cbn [destructure loading loadingColor loadingSize].
    by intros ->.
  - unfold mask_content. cbn [destructure loading textStyle text].
    by intros ->.
  - rewrite !count_view by auto. apply count_mask_content.
Qed.

Lemma mask_has_one_content_witness :
  validates (heap demo_state) demo_loading_props = true
  ∧ ∃ tree s',
      GradientButton demo_loading_props demo_state = (Normal tree, s')
      ∧ mask_contents tree
        = [JElement ActivityIndicator
             [("color", JVal (VString "#FFFFFF"));
              ("size", JVal (VString "small"))] []].
Proof.
  split; [reflexivity|].
  destruct (mask_has_one_content demo_loading_props demo_state)
    as (tree & s' & content & Hrun & Hone & Hloading & _ & _);
    [reflexivity | by apply unfrozen_deletable |].
  exists tree, s'. split; [exact Hrun|].
  rewrite Hone, Hloading; reflexivity.
Defined.

(** C7.  A render that passes the validation returns one fixed nest: a View
    styled with [outerStyle], holding one TouchableOpacity, holding one View,
    holding one MaskedView whose only child is a LinearGradient without
    children; the gradient receives [colors], [start] (default x 0, y 0),
    [end] (default x 1, y 0), [locations], [useAngle] (default false),
    [angle] (default 0) and [angleCenter] as the properties give them.
    The [textStyle] is one whose entries can be deleted. *)
Theorem view_shape (props : object) (s : state) :
  validates (heap s) props = true →
  ¬ undeletable s (prop "textStyle" props) →
  ∃ tree s' outerStyle innerStyle tattrs mattrs gattrs,
    GradientButton props s = (Normal tree, s')
    ∧ (splitStyle (prop "style" props)
         (after_textStyle (prop "textStyle" props) s)).1
      = Normal (outerStyle, innerStyle)
    ∧ tree
      = JElement View [("style", JObject outerStyle)]
          [JElement TouchableOpacity tattrs
             [JElement View [("style", JObject styles.buttonContent)]
                [JElement MaskedView mattrs
                   [JElement LinearGradient gattrs []]]]]
    ∧ get_prop "colors" gattrs = Some (JVal (prop "colors" props))
    ∧ get_prop "start" gattrs
      = Some (prop_or_object "start" [("x", VNumber 0); ("y", VNumber 0)]
                props)
    ∧ get_prop "end" gattrs
      = Some (prop_or_object "end" [("x", VNumber 1); ("y", VNumber 0)]
                props)
    ∧ get_prop "locations" gattrs
      = Some (JVal (prop "locations" props))
    ∧ get_prop "useAngle" gattrs
      = Some (JVal (prop_or "useAngle" (VBool false) props))
    ∧ get_prop "angle" gattrs
      = Some (JVal (prop_or "angle" (VNumber 0) props))
    ∧ get_prop "angleCenter" gattrs
      = Some (JVal (prop "angleCenter" props)).
Proof.
  intros Hv Hdel.
  destruct (GradientButton_valid props s Hv Hdel)
    as (outer & inner & ws & Hsplit & ->).
  eexists _, _, outer, inner, _, _, _.
  split; [done|]. split; [by rewrite Hsplit|].
  split; [reflexivity|]. by repeat split.
Qed.

Lemma view_shape_witness :
  validates (heap demo_state) demo_props = true
  ∧ ∃ tree s' tattrs mattrs gattrs,
      GradientButton demo_props demo_state = (Normal tree, s')
      ∧ tree
        = JElement View [("style", JObject [("height", VNumber 50)])]
            [JElement TouchableOpacity tattrs
               [JElement View [("style", JObject styles.buttonContent)]
                  [JElement MaskedView mattrs
                     [JElement LinearGradient gattrs []]]]]
      ∧ get_prop "colors" gattrs = Some (JVal (VRef 1%positive))
      ∧ get_prop "start" gattrs
        = Some (JObject [("x", VNumber 0); ("y", VNumber 0)]).
Proof.
  split; [reflexivity|].
  destruct (view_shape demo_props demo_state)
    as (tree & s' & outer & inner & ta & ma & ga
        & Hrun & Hsplit & Htree & Hcolors & Hstart & _); [reflexivity | by apply unfrozen_deletable |].
  exists tree, s', ta, ma, ga. split; [exact Hrun|].
  split; [|split; [exact Hcolors | exact Hstart]].
  rewrite Htree. vm_compute in Hsplit.
  by injection Hsplit as <- <-.
Defined.

Lemma truthy_js_or a b : truthy (js_or a b) = truthy a || truthy b.
Proof. unfold js_or. destruct (truthy a) eqn:Ha; [by rewrite Ha | done]. Qed.

Lemma validates_text h props :
  validates h props = true → truthy (prop "text" props) = true.
Proof. unfold validates. by destruct (truthy (prop "text" props)). Qed.

(** C9.  The TouchableOpacity receives [disabled || loading] as its
    [disabled] attribute, and the spread of the remaining properties cannot
    replace it; so with [loading] true the attribute is truthy, and it is
    [true] when [disabled] is false or absent.
    The [textStyle] is one whose entries can be deleted. *)
Theorem loading_disables (props : object) (s : state) :
  validates (heap s) props = true →
  ¬ undeletable s (prop "textStyle" props) →
  ∃ tree s' t,
    GradientButton props s = (Normal tree, s')
    ∧ touchable tree = Some t
    ∧ type_of t = Some TouchableOpacity
    ∧ attr "disabled" t
      = Some (JVal (js_or (prop_or "disabled" (VBool false) props)
                      (prop_or "loading" (VBool false) props)))
    ∧ (prop "loading" props = VBool true →
       ∃ d, attr "disabled" t = Some (JVal d) ∧ truthy d = true)
    ∧ (prop "loading" props = VBool true →
       prop "disabled" props = VBool false
       ∨ prop "disabled" props = VUndefined →
       attr "disabled" t = Some (JVal (VBool true))).
Proof.
  intros Hv Hdel.
  destruct (GradientButton_valid props s Hv Hdel) as (outer & inner & ws & _ & ->).
  eexists _, _, _. split; [done|].
  split; [apply touchable_view|]. split; [done|].
  assert (attr "disabled"
            (JElement TouchableOpacity (touchable_attrs (destructure props))
               [JElement View [("style", JObject styles.buttonContent)]
                  [JElement MaskedView
                     [("maskElement",
                       mask_element (destructure props) inner);
                      ("style", StyleSheet_absoluteFill);
                      ("pointerEvents", JVal (VString "none"))]
                     [gradient (destructure props)]]])
          = Some (JVal (js_or (prop_or "disabled" (VBool false) props)
                          (prop_or "loading" (VBool false) props)))) as ->.
  { unfold attr. cbn [attrs_of].
    rewrite touchable_attr; [done| |done].
    unfold destructured. rewrite !elem_of_cons. tauto. }
  split; [done|]. unfold prop_or. split.
  - intros ->. eexists. split; [done|].
    rewrite truthy_js_or. apply orb_true_r.
  - by intros -> [-> | ->].
Qed.

Lemma loading_disables_witness :
  validates (heap demo_state) demo_loading_props = true
  ∧ ∃ tree s' t,
      GradientButton demo_loading_props demo_state = (Normal tree, s')
      ∧ touchable tree = Some t
      ∧ attr "disabled" t = Some (JVal (VBool true)).
Proof.
  split; [reflexivity|].
  destruct (loading_disables demo_loading_props demo_state)
    as (tree & s' & t & Hrun & Ht & _ & _ & _ & Htrue); [reflexivity | by apply unfrozen_deletable |].
  exists tree, s', t. split; [exact Hrun|]. split; [exact Ht|].
  apply Htrue; [reflexivity | left; reflexivity].
Defined.

(** C10.  The TouchableOpacity receives [accessibilityLabel || text] as its
    [accessibilityLabel], and the spread cannot replace it; when the
    property is absent or the empty string the label is [text], which a
    property bag that passes the validation never has falsy: it is neither
    absent nor the empty string.
    The [textStyle] is one whose entries can be deleted. *)
Theorem label_falls_back (props : object) (s : state) :
  validates (heap s) props = true →
  ¬ undeletable s (prop "textStyle" props) →
  ∃ tree s' t,
    GradientButton props s = (Normal tree, s')
    ∧ touchable tree = Some t
    ∧ type_of t = Some TouchableOpacity
    ∧ attr "accessibilityLabel" t
      = Some (JVal (js_or (prop "accessibilityLabel" props)
                      (prop "text" props)))
    ∧ (prop "accessibilityLabel" props = VUndefined
       ∨ prop "accessibilityLabel" props = VString "" →
       attr "accessibilityLabel" t = Some (JVal (prop "text" props)))
    ∧ truthy (prop "text" props) = true
    ∧ prop "text" props ≠ VUndefined
    ∧ prop "text" props ≠ VString "".
Proof.
  intros Hv Hdel. pose proof (validates_text _ _ Hv) as Htext.
  destruct (GradientButton_valid props s Hv Hdel) as (outer & inner & ws & _ & ->).
  eexists _, _, _. split; [done|].
  split; [apply touchable_view|]. split; [done|].
  assert (attr "accessibilityLabel"
            (JElement TouchableOpacity (touchable_attrs (destructure props))
               [JElement View [("style", JObject styles.buttonContent)]
                  [JElement MaskedView
                     [("maskElement",
                       mask_element (destructure props) inner);
                      ("style", StyleSheet_absoluteFill);
                      ("pointerEvents", JVal (VString "none"))]
                     [gradient (destructure props)]]])
          = Some (JVal (js_or (prop "accessibilityLabel" props)
                          (prop "text" props)))) as ->.
  { unfold attr. cbn [attrs_of].
    rewrite touchable_attr; [done| |done].
    unfold destructured. rewrite !elem_of_cons. tauto. }
  split; [done|]. split; [by intros [-> | ->]|].
  split; [done|]. split; intros Heq; by rewrite Heq in Htext.
Qed.

Lemma label_falls_back_witness :
  validates (heap demo_state) demo_props = true
  ∧ ∃ tree s' t,
      GradientButton demo_props demo_state = (Normal tree, s')
      ∧ touchable tree = Some t
      ∧ attr "accessibilityLabel" t = Some (JVal (VString "Click me")).
Proof.
  split; [reflexivity|].
  destruct (label_falls_back demo_props demo_state)
    as (tree & s' & t & Hrun & Ht & _ & _ & Hfall & _); [reflexivity | by apply unfrozen_deletable |].
  exists tree, s', t. split; [exact Hrun|]. split; [exact Ht|].
  apply Hfall. left. reflexivity.
Defined.

(** * Purity: what a call reads and what it changes *)









Lemma strip_idemp (o : object) : strip (strip o) = strip o.
Proof.
  unfold strip. rewrite list_filter_filter. apply list_filter_iff. tauto.
Qed.

Lemma sanitized_idemp h ts : sanitized (sanitized h ts) ts = sanitized h ts.
Proof.
  destruct ts as [| | | | | |l]; try done. cbn.
  destruct (h !! l) as [[o|a]|] eqn:Hl; cbn; rewrite ?Hl; try done.
  by rewrite lookup_insert_eq, insert_insert_eq, strip_idemp.
Qed.

Lemma sanitized_lookup_ne h ts l :
  ts ≠ VRef l → sanitized h ts !! l = h !! l.
Proof.
  destruct ts as [| | | | | |l']; try done. intros Hne. cbn.
  destruct (h !! l') as [[o|a]|] eqn:Hl; try done.
  apply lookup_insert_ne. congruence.
Qed.


(** The pass over [textStyle] never touches an array. *)
Lemma sanitized_array h ts v :
  Array_isArray (sanitized h ts) v = Array_isArray h v
  ∧ array_elements (sanitized h ts) v = array_elements h v.
Proof.
  destruct v as [| | | | | |lv]; try done. cbn.
  destruct ts as [| | | | | |l]; try done.
  destruct (decide (l = lv)) as [->|Hne].
  - cbn. destruct (h !! lv) as [[o|a]|] eqn:Hl; rewrite ?Hl; try done.
    by rewrite lookup_insert_eq.
  - rewrite sanitized_lookup_ne; [done | congruence].
Qed.

Lemma validation_error_sanitized h ts props :
  validation_error (sanitized h ts) props = validation_error h props.
Proof.
  unfold validation_error.
  destruct (sanitized_array h ts (prop "colors" props)) as [-> ->]. done.
Qed.

(** Once stripped, a [textStyle] object holds no key whose deletion could
    be refused. *)
Lemma delete_error_sanitized s1 h ts :
  heap s1 = sanitized h ts → delete_error s1 ts = None.
Proof.
  intros Hh. apply delete_error_None_iff.
  intros (l & o & k & -> & Hl & _ & Hk & Hin). rewrite Hh in Hl.
  cbn in Hl. destruct (h !! l) as [[o'|a]|] eqn:Hl'.
  - rewrite lookup_insert_eq in Hl. injection Hl as <-.
    apply strip_keys in Hin as [_ Hn]. done.
  - congruence.
  - congruence.
Qed.


(** When the caller passes one object as [style] and as [textStyle], the
    [style] object changes too, and [splitStyle] sees it changed. *)
Lemma style_aliasing_textStyle :
  ∃ tree s',
    GradientButton
      [("text", VString "Go"); ("colors", VRef 1%positive);
       ("style", VRef 2%positive); ("textStyle", VRef 2%positive)]
      demo_state
    = (Normal tree, s')
    ∧ Object_entries (heap s') (VRef 2%positive) = [("fontSize", VNumber 18)]
    ∧ console s' = [textStyle_warning "color"].
Proof. eexists _, _. split; [vm_compute; reflexivity|]. by split. Qed.


(** * Further properties: errors *)

(** X1.  A property bag that fails the validation makes the call throw with
    the state exactly as it was: nothing is deleted from [textStyle] and no
    warning is written.  The [text] check comes first: a falsy [text] gives
    the text message whatever [colors] is, and with a truthy [text] a
    [colors] that is no array or has fewer than two elements gives the
    colors message. *)
Theorem invalid_props_throw_untouched (props : object) (s : state) :
  validates (heap s) props = false →
  ∃ e,
    GradientButton props s = (Throw e, s)
    ∧ (truthy (prop "text" props) = false → e = text_required)
    ∧ (truthy (prop "text" props) = true →
       Array_isArray (heap s) (prop "colors" props) = false
       ∨ length (array_elements (heap s) (prop "colors" props)) < 2 →
       e = colors_required).
Proof.
  intros Hv. rewrite GradientButton_run.
  destruct (validation_error (heap s) props) as [e|] eqn:He.
  - exists e. split; [done|]. unfold validation_error in He. split.
    + intros Ht. rewrite Ht in He. cbn in He. congruence.
    + intros Ht Hc. rewrite Ht in He. cbn [negb] in He.
      assert ((negb (truthy (prop "colors" props))
               || negb (Array_isArray (heap s) (prop "colors" props))
               || (length (array_elements (heap s) (prop "colors" props))
                   <? 2)%nat) = true) as Hbad.
      { destruct Hc as [Ha|Hlen].
        - rewrite Ha. cbn. apply orb_true_iff. left. apply orb_true_r.
        - apply orb_true_iff. right. by apply Nat.ltb_lt. }
      rewrite Hbad in He. congruence.
  - apply validation_error_None in He. congruence.
Qed.

Lemma invalid_props_throw_untouched_witness :
  validates (heap demo_state_edge) demo_bad_color_props = false
  ∧ ∃ e, GradientButton demo_bad_color_props demo_state_edge
         = (Throw e, demo_state_edge).
Proof.
  split; [reflexivity|].
  destruct (invalid_props_throw_untouched demo_bad_color_props
              demo_state_edge) as (e & Hrun & _); [reflexivity|].
  by exists e.
Defined.

Lemma first_non_string_Some cs :
  ∀ k n,
    first_non_string cs k = Some n →
    ∃ i c,
      n = k + i ∧ cs !! i = Some c ∧ ¬ is_string c
      ∧ ∀ j c', j < i → cs !! j = Some c' → is_string c'.
Proof.
  induction cs as [|c cs IH]; intros k n; cbn [first_non_string]; [done|].
  destruct (String.eqb (typeof c) "string") eqn:Hc.
  - intros (i & c0 & -> & Hi & Hns & Hbefore)%IH.
    exists (S i), c0. split; [lia|]. split; [done|]. split; [done|].
    intros [|j] c' Hj Hl.
    + cbn in Hl. injection Hl as <-. by apply typeof_string.
    + cbn in Hl. apply (Hbefore j); [lia | done].
  - intros [= <-]. exists 0, c. split; [lia|]. split; [done|].
    split; [|intros j c' Hj; lia].
    intros Hs%typeof_string. congruence.
Qed.

(** X2.  When [text] is truthy and [colors] is an array of at least two
    elements one of which is no string, the call throws the message that
    names the index of the first such element, again without touching the
    state. *)
Theorem first_non_string_color_reported (props : object) (s : state)
    (l : loc) (cs : list value) :
  truthy (prop "text" props) = true →
  prop "colors" props = VRef l →
  heap s !! l = Some (CArray cs) →
  (2 ≤ length cs)%nat →
  Exists (λ c, ¬ is_string c) cs →
  ∃ i c,
    GradientButton props s = (Throw (color_not_string i), s)
    ∧ cs !! i = Some c
    ∧ ¬ is_string c
    ∧ ∀ j c', j < i → cs !! j = Some c' → is_string c'.
Proof.
  intros Ht Hc Hl Hlen Hex. rewrite GradientButton_run.
  unfold validation_error. rewrite Ht, Hc.
  cbn [negb truthy Array_isArray array_elements orb]. rewrite Hl.
  assert ((length cs <? 2)%nat = false) as -> by (apply Nat.ltb_ge; lia).
  destruct (first_non_string cs 0) as [n|] eqn:Hn.
  - destruct (first_non_string_Some cs 0 n Hn)
      as (i & c & -> & Hi & Hns & Hbefore).
    exists i, c. by repeat split.
  - apply first_non_string_None in Hn.
    apply forallb_string_false in Hex. congruence.
Qed.

Lemma first_non_string_color_reported_witness :
  ∃ i c,
    GradientButton demo_bad_color_props demo_state_edge
    = (Throw (color_not_string i), demo_state_edge)
    ∧ [VString "red"; VNumber 3; VNull] !! i = Some c
    ∧ ¬ is_string c
    ∧ ∀ j c', j < i → [VString "red"; VNumber 3; VNull] !! j = Some c' →
              is_string c'.
Proof.
  apply (first_non_string_color_reported demo_bad_color_props
           demo_state_edge 6%positive [VString "red"; VNumber 3; VNull]).
  - reflexivity.
  - reflexivity.
  - reflexivity.
  - cbn. lia.
  - apply Exists_cons_tl, Exists_cons_hd. by intros [str [=]].
Defined.

(** * Further properties: the console and the store *)

Lemma splitStyle_state v s :
  (splitStyle v s).2
  = State (heap s) (console s ++ style_warnings (Object_entries (heap s) v))
      (frozen s).
Proof.
  unfold splitStyle, mbind, M_bind, bind, get_heap. cbn [fst snd].
  destruct (plain_object_cases (heap s) v)
    as [(l & o & -> & Hl)|(_ & He & _)].
  - change (truthy (VRef l) && String.eqb (typeof (VRef l)) "object")
      with true.
    cbn [Array_isArray andb]. rewrite Hl. cbn [negb].
    by destruct (forEach_acc_splitStyle_total
                   (Object_entries (heap s) (VRef l)) ([], []) s)
      as [acc' ->].
  - rewrite He. destruct (_ && _).
    + cbn. unfold style_warnings. cbn. rewrite app_nil_r. by destruct s.
    + cbn. unfold style_warnings. cbn. rewrite app_nil_r. by destruct s.
Qed.

(** A valid render, with the state it leaves written out. *)
Lemma GradientButton_valid_state props s :
  validates (heap s) props = true →
  ¬ undeletable s (prop "textStyle" props) →
  ∃ outerStyle innerStyle,
    GradientButton props s
    = (Normal (view (destructure props) outerStyle innerStyle),
       State (sanitized (heap s) (prop "textStyle" props))
         (console s
            ++ textStyle_warnings
                 (Object_entries (heap s) (prop "textStyle" props))
            ++ style_warnings
                 (Object_entries
                    (sanitized (heap s) (prop "textStyle" props))
                    (prop "style" props)))
         (frozen s)).
Proof.
  intros Hv%validation_error_None Hde%delete_error_None_iff.
  rewrite GradientButton_run, Hv.
  cbn [destructure style textStyle]. rewrite Hde.
  pose proof (splitStyle_state (prop "style" props)
                (after_textStyle (prop "textStyle" props) s)) as Hst.
  destruct (splitStyle_total (prop "style" props)
              (after_textStyle (prop "textStyle" props) s))
    as (outer & inner & ws & Hs).
  rewrite Hs in Hst |- *. cbn [snd] in Hst. rewrite Hst.
  exists outer, inner. unfold after_textStyle. cbn [heap console frozen].
  by rewrite <- app_assoc.
Qed.

Lemma textStyle_warnings_nil (o : object) :
  (∀ k, k ∈ restrictedTextProps → k ∉ keys o) → textStyle_warnings o = [].
Proof.
  intros Hclean. unfold textStyle_warnings.
  rewrite (filter_ext_in _ (λ _, False)).
  - reflexivity.
  - intros p Hp. unfold has_prop. rewrite bool_decide_spec.
    split; [by apply Hclean | done].
Qed.

Lemma textStyle_warnings_sanitized h ts :
  textStyle_warnings (Object_entries (sanitized h ts) ts) = [].
Proof.
  apply textStyle_warnings_nil. intros k Hk.
  destruct (plain_object_cases h ts) as [(l & o & -> & Hl)|(_ & He & ->)].
  - cbn. rewrite Hl, lookup_insert_eq. intros [_ Hn]%strip_keys. done.
  - rewrite He. apply not_elem_of_nil.
Qed.

(** X3.  Whatever [style] is, [splitStyle] leaves the store as it is and
    appends to the console exactly one warning for each rejected key among
    the entries of a plain [style] object, in their enumeration order, and
    nothing else. *)
Theorem splitStyle_warns_per_rejected_key (v : value) (s : state) :
  heap (splitStyle v s).2 = heap s
  ∧ console (splitStyle v s).2
    = console s
      ++ (style_warning
            <$> filter (λ k, includes rejectedStyleProps k)
                  (keys (Object_entries (heap s) v))).
Proof. by rewrite splitStyle_state. Qed.

(** X4.  A render that passes the validation appends to the console first
    the warnings of the [textStyle] pass, then those of [splitStyle], the
    latter read off the [style] object as the [textStyle] pass left it.
    The [textStyle] is one whose entries can be deleted. *)
Theorem render_console (props : object) (s : state) :
  validates (heap s) props = true →
  ¬ undeletable s (prop "textStyle" props) →
  ∃ tree s',
    GradientButton props s = (Normal tree, s')
    ∧ console s'
      = console s
        ++ textStyle_warnings
             (Object_entries (heap s) (prop "textStyle" props))
        ++ style_warnings (Object_entries (heap s') (prop "style" props)).
Proof.
  intros Hv Hdel.
  destruct (GradientButton_valid_state props s Hv Hdel)
    as (outer & inner & ->).
  by eexists _, _.
Qed.

Lemma render_console_witness :
  validates (heap demo_state) demo_props = true
  ∧ ∃ tree s',
      GradientButton demo_props demo_state = (Normal tree, s')
      ∧ console s'
        = [textStyle_warning "color"; style_warning "backgroundColor"].
Proof.
  split; [reflexivity|].
  destruct (render_console demo_props demo_state)
    as (tree & s' & Hrun & Hconsole); [reflexivity | by apply unfrozen_deletable |].
  exists tree, s'. split; [exact Hrun|].
  rewrite Hconsole. vm_compute in Hrun.
  injection Hrun as _ <-. reflexivity.
Defined.

(** X5.  When [textStyle] is not a plain object, an array of style objects
    for instance, the [textStyle] pass does nothing: a valid render leaves
    the store as it was, writes no [textStyle] warning, and hands the value
    to the Text element as it is, colour entries of nested styles
    included. *)
Theorem textStyle_non_object_passes (props : object) (s : state) :
  validates (heap s) props = true →
  ¬ plain_object (heap s) (prop "textStyle" props) →
  ∃ tree s',
    GradientButton props s = (Normal tree, s')
    ∧ heap s' = heap s
    ∧ console s'
      = console s
        ++ style_warnings (Object_entries (heap s) (prop "style" props))
    ∧ (truthy (prop_or "loading" (VBool false) props) = false →
       mask_contents tree
       = [JElement Text
            [("style",
              JArray [JObject styles.buttonText;
                      JVal (prop "textStyle" props)])]
            [JVal (prop "text" props)]]).
Proof.
  intros Hv Hnp.
  assert (¬ undeletable s (prop "textStyle" props)) as Hdel.
  { intros (l & o & k & Hts & Hl & _). apply Hnp. by exists l, o. }
  destruct (GradientButton_valid_state props s Hv Hdel)
    as (outer & inner & ->).
  destruct (plain_object_cases (heap s) (prop "textStyle" props))
    as [?|(_ & He & Hh)]; [done|].
  eexists _, _. split; [done|]. cbn [heap console]. rewrite Hh, He.
  split; [done|]. split; [done|].
  intros Hload. rewrite mask_contents_view. unfold mask_content.
  cbn [destructure loading textStyle text]. by rewrite Hload.
Qed.

Lemma demo_array_textStyle_not_plain :
  ¬ plain_object (heap demo_state_edge)
      (prop "textStyle" demo_array_textStyle_props).
Proof. intros (l & o & [= <-] & Hl). vm_compute in Hl. discriminate. Qed.

Lemma textStyle_non_object_passes_witness :
  validates (heap demo_state_edge) demo_array_textStyle_props = true
  ∧ ∃ tree s',
      GradientButton demo_array_textStyle_props demo_state_edge
      = (Normal tree, s')
      ∧ heap s' = heap demo_state_edge
      ∧ mask_contents tree
        = [JElement Text
             [("style",
               JArray [JObject styles.buttonText; JVal (VRef 7%positive)])]
             [JVal (VString "Click me")]].
Proof.
  split; [reflexivity|].
  destruct (textStyle_non_object_passes demo_array_textStyle_props
              demo_state_edge)
    as (tree & s' & Hrun & Hheap & _ & Htext);
    [reflexivity | apply demo_array_textStyle_not_plain |].
  exists tree, s'. split; [exact Hrun|]. split; [exact Hheap|].
  apply Htext. reflexivity.
Defined.

(** X6.  After one valid render the [textStyle] object holds none of the
    restricted keys, so a second render with the same property bag writes
    no [textStyle] warning and leaves the store as the first one left it:
    the warning about a restricted text colour is written once.
    The [textStyle] is one whose entries can be deleted. *)
Theorem second_render_silent (props : object) (s : state) :
  validates (heap s) props = true →
  ¬ undeletable s (prop "textStyle" props) →
  ∃ tree s1 tree2 s2,
    GradientButton props s = (Normal tree, s1)
    ∧ GradientButton props s1 = (Normal tree2, s2)
    ∧ heap s2 = heap s1
    ∧ console s2
      = console s1
        ++ style_warnings (Object_entries (heap s1) (prop "style" props)).
Proof.
  intros Hv Hdel.
  destruct (GradientButton_valid_state props s Hv Hdel)
    as (outer & inner & Hrun).
  rewrite Hrun.
  match goal with
  | Hrun : _ = (_, ?st) |- _ => set (s1 := st) in *
  end.
  assert (validates (heap s1) props = true) as Hv2.
  { apply validation_error_None. subst s1. cbn [heap].
    rewrite validation_error_sanitized. by apply validation_error_None. }
  assert (¬ undeletable s1 (prop "textStyle" props)) as Hdel2.
  { apply delete_error_None_iff. by apply (delete_error_sanitized _ (heap s)). }
  destruct (GradientButton_valid_state props s1 Hv2 Hdel2)
    as (outer2 & inner2 & Hrun2).
  eexists _, s1, _, _. split; [done|]. split; [exact Hrun2|].
  subst s1. cbn [heap console].
  rewrite sanitized_idemp, textStyle_warnings_sanitized.
  split; [done|]. reflexivity.
Qed.

Lemma second_render_silent_witness :
  validates (heap demo_state) demo_props = true
  ∧ ∃ tree s1 tree2 s2,
      GradientButton demo_props demo_state = (Normal tree, s1)
      ∧ GradientButton demo_props s1 = (Normal tree2, s2)
      ∧ heap s2 = heap s1.
Proof.
  split; [reflexivity|].
  destruct (second_render_silent demo_props demo_state)
    as (tree & s1 & tree2 & s2 & Hrun & Hrun2 & Hheap & _); [reflexivity | by apply unfrozen_deletable |].
  by exists tree, s1, tree2, s2.
Defined.

(** * Further properties: the two styles *)

Lemma forEach_acc_splitStyle_inv (entries : object) :
  ∀ outer inner s outer' inner' s',
    forEach_acc splitStyle_entry entries (outer, inner) s
    = (Normal (outer', inner'), s') →
    (NoDup (keys outer) → NoDup (keys outer'))
    ∧ (NoDup (keys inner) → NoDup (keys inner'))
    ∧ (∀ k, k ∈ keys outer' → k ∈ keys outer ∨ goes_outer k = true)
    ∧ (∀ k, k ∈ keys inner' → k ∈ keys inner ∨ goes_inner k = true).
Proof.
  induction entries as [|[k v] es IH]; intros outer inner s outer' inner' s'.
  - intros [= <- <- _]. by repeat split; auto.
  - rewrite forEach_acc_cons, splitStyle_entry_run.
    destruct (includes rejectedStyleProps k) eqn:Hr; [apply IH|].
    destruct (includes layoutStyleProps k) eqn:Hl; intros Hrun;
      destruct (IH _ _ _ _ _ _ Hrun) as (Hno & Hni & Hko & Hki).
    + split; [intros Hnd; by apply Hno, NoDup_keys_set_prop|].
      split; [done|]. split; [|done].
      intros k' [[->|Hin]%keys_set_prop | Hg]%Hko; auto.
      right. unfold goes_outer. by rewrite Hr, Hl.
    + split; [done|].
      split; [intros Hnd; by apply Hni, NoDup_keys_set_prop|].
      split; [done|].
      intros k' [[->|Hin]%keys_set_prop | Hg]%Hki; auto.
      right. unfold goes_inner. by rewrite Hr, Hl.
Qed.

(** Whatever it is given, [splitStyle] returns objects with distinct keys,
    the outer one holding layout keys only and the inner one none of the
    layout or rejected keys. *)
Lemma splitStyle_inv v s outerStyle innerStyle s' :
  splitStyle v s = (Normal (outerStyle, innerStyle), s') →
  NoDup (keys outerStyle)
  ∧ NoDup (keys innerStyle)
  ∧ (∀ k, k ∈ keys outerStyle → goes_outer k = true)
  ∧ (∀ k, k ∈ keys innerStyle → goes_inner k = true).
Proof.
  unfold splitStyle, mbind, M_bind, bind, get_heap. cbn [fst snd].
  destruct (_ && _).
  - intros (Hno & Hni & Hko & Hki)%forEach_acc_splitStyle_inv.
    split; [apply Hno, NoDup_nil_2|]. split; [apply Hni, NoDup_nil_2|].
    split; intros k Hin.
    + destruct (Hko k Hin) as [[]%elem_of_nil|]; done.
    + destruct (Hki k Hin) as [[]%elem_of_nil|]; done.
  - intros [= <- <- _]. split; [apply NoDup_nil_2|].
    split; [apply NoDup_nil_2|]. split; intros k []%elem_of_nil.
Qed.

Lemma filter_goes_outer_notrej (o : object) :
  filter (λ kv, goes_outer kv.1) o
  = filter (λ kv, goes_outer kv.1)
      (filter (λ kv, kv.1 ∉ rejectedStyleProps) o).
Proof.
  rewrite list_filter_filter. apply list_filter_iff. intros [k v]. cbn.
  split; [|tauto]. intros Hg. split; [done|].
  apply includes_false. unfold goes_outer in Hg.
  by destruct (includes rejectedStyleProps k).
Qed.

Lemma filter_goes_inner_notrej (o : object) :
  filter (λ kv, goes_inner kv.1) o
  = filter (λ kv, goes_inner kv.1)
      (filter (λ kv, kv.1 ∉ rejectedStyleProps) o).
Proof.
  rewrite list_filter_filter. apply list_filter_iff. intros [k v]. cbn.
  split; [|tauto]. intros Hg. split; [done|].
  apply includes_false. unfold goes_inner in Hg.
  by destruct (includes rejectedStyleProps k).
Qed.

(** X7.  The rejected keys have no influence on the two styles: two plain
    style objects that agree once backgroundColor, borderColor, shadowColor
    and color are left out are split into the same [outerStyle] and the same
    [innerStyle]. *)
Theorem rejected_keys_do_not_matter (s : state) (l1 l2 : loc)
    (o1 o2 : object) :
  heap s !! l1 = Some (CObject o1) →
  heap s !! l2 = Some (CObject o2) →
  NoDup (keys o1) → NoDup (keys o2) →
  filter (λ kv, kv.1 ∉ rejectedStyleProps) o1
  = filter (λ kv, kv.1 ∉ rejectedStyleProps) o2 →
  (splitStyle (VRef l1) s).1 = (splitStyle (VRef l2) s).1.
Proof.
  intros H1 H2 Hnd1 Hnd2 Heq.
  rewrite (splitStyle_plain s l1 o1), (splitStyle_plain s l2 o2) by done.
  cbn [fst].
  rewrite (filter_goes_outer_notrej o1), (filter_goes_inner_notrej o1).
  rewrite (filter_goes_outer_notrej o2), (filter_goes_inner_notrej o2).
  by rewrite Heq.
Qed.

Lemma NoDup_object_8 :
  NoDup (keys [("borderRadius", VNumber 8)] : list string).
Proof. apply (bool_decide_unpack _). by vm_compute. Qed.

Lemma NoDup_object_9 :
  NoDup (keys [("borderRadius", VNumber 8);
               ("backgroundColor", VString "white")] : list string).
Proof. apply (bool_decide_unpack _). by vm_compute. Qed.

Lemma rejected_keys_do_not_matter_witness :
  (splitStyle (VRef 8%positive) demo_state_edge).1
  = (splitStyle (VRef 9%positive) demo_state_edge).1.
Proof.
  apply (rejected_keys_do_not_matter demo_state_edge 8%positive 9%positive
           [("borderRadius", VNumber 8)]
           [("borderRadius", VNumber 8);
            ("backgroundColor", VString "white")]).
  - reflexivity.
  - reflexivity.
  - apply NoDup_object_8.
  - apply NoDup_object_9.
  - reflexivity.
Defined.

Lemma filter_goes_outer_idemp (o : object) :
  filter (λ kv, goes_outer kv.1) (filter (λ kv, goes_outer kv.1) o)
  = filter (λ kv, goes_outer kv.1) o
  ∧ filter (λ kv, goes_inner kv.1) (filter (λ kv, goes_outer kv.1) o) = []
  ∧ style_warnings (filter (λ kv, goes_outer kv.1) o) = [].
Proof.
  split; [|split].
  - rewrite list_filter_filter. apply list_filter_iff. tauto.
  - rewrite list_filter_filter.
    rewrite (filter_ext_in _ (λ _, False)); [by induction o|].
    intros [k v] _. cbn. unfold goes_inner, goes_outer.
    destruct (includes rejectedStyleProps k), (includes layoutStyleProps k);
      cbn; tauto.
  - unfold style_warnings.
    rewrite (filter_ext_in _ (λ _, False)); [by induction (keys _)|].
    intros k [_ Hg]%keys_filter_bool. unfold goes_outer in Hg.
    destruct (includes rejectedStyleProps k); [done | cbn; tauto].
Qed.

Lemma filter_goes_inner_idemp (o : object) :
  filter (λ kv, goes_inner kv.1) (filter (λ kv, goes_inner kv.1) o)
  = filter (λ kv, goes_inner kv.1) o
  ∧ filter (λ kv, goes_outer kv.1) (filter (λ kv, goes_inner kv.1) o) = []
  ∧ style_warnings (filter (λ kv, goes_inner kv.1) o) = [].
Proof.
  split; [|split].
  - rewrite list_filter_filter. apply list_filter_iff. tauto.
  - rewrite list_filter_filter.
    rewrite (filter_ext_in _ (λ _, False)); [by induction o|].
    intros [k v] _. cbn. unfold goes_inner, goes_outer.
    destruct (includes rejectedStyleProps k), (includes layoutStyleProps k);
      cbn; tauto.
  - unfold style_warnings.
    rewrite (filter_ext_in _ (λ _, False)); [by induction (keys _)|].
    intros k [_ Hg]%keys_filter_bool. unfold goes_inner in Hg.
    destruct (includes rejectedStyleProps k); [done | cbn; tauto].
Qed.

(** X8.  Splitting is stable: passing the [outerStyle] of a split as a style
    again gives that same object as outer style and an empty inner style,
    and passing the [innerStyle] gives an empty outer style and that same
    object as inner style; neither writes a warning. *)
Theorem splitStyle_again (s : state) (l : loc) (o : object)
    (outerStyle innerStyle : object) (s' s2 : state) (lo li : loc) :
  heap s !! l = Some (CObject o) →
  NoDup (keys o) →
  splitStyle (VRef l) s = (Normal (outerStyle, innerStyle), s') →
  heap s2 !! lo = Some (CObject outerStyle) →
  heap s2 !! li = Some (CObject innerStyle) →
  splitStyle (VRef lo) s2 = (Normal (outerStyle, []), s2)
  ∧ splitStyle (VRef li) s2 = (Normal ([], innerStyle), s2).
Proof.
  intros Hl Hnd. rewrite (splitStyle_plain s l o) by done.
  intros [= <- <- _] Ho Hi.
  destruct (filter_goes_outer_idemp o) as (Hoo & Hoi & How).
  destruct (filter_goes_inner_idemp o) as (Hii & Hio & Hiw).
  split.
  - rewrite (splitStyle_plain s2 _ _ Ho) by by apply NoDup_keys_filter.
    rewrite Hoo, Hoi, How, app_nil_r. by destruct s2.
  - rewrite (splitStyle_plain s2 _ _ Hi) by by apply NoDup_keys_filter.
    rewrite Hii, Hio, Hiw, app_nil_r. by destruct s2.
Qed.

Lemma splitStyle_again_witness :
  splitStyle (VRef 2%positive) demo_state_split
  = (Normal ([("width", VNumber 120); ("height", VNumber 50)], []),
     demo_state_split)
  ∧ splitStyle (VRef 3%positive) demo_state_split
    = (Normal ([], [("borderRadius", VNumber 8)]), demo_state_split).
Proof.
  apply (splitStyle_again demo_state_split 1%positive demo_merged
           [("width", VNumber 120); ("height", VNumber 50)]
           [("borderRadius", VNumber 8)]
           (State (heap demo_state_split)
              [style_warning "backgroundColor"] ∅)
           demo_state_split 2%positive 3%positive).
  - reflexivity.
  - apply NoDup_demo_merged.
  - vm_compute. reflexivity.
  - reflexivity.
  - reflexivity.
Defined.

(** X9.  The two styles keep the caller's order: on a plain object with
    distinct keys each of [outerStyle] and [innerStyle] lists entries of the
    input in the input's enumeration order, without repeating a key. *)
Theorem splitStyle_keeps_order (s : state) (l : loc) (o : object) :
  heap s !! l = Some (CObject o) →
  NoDup (keys o) →
  ∃ outerStyle innerStyle s',
    splitStyle (VRef l) s = (Normal (outerStyle, innerStyle), s')
    ∧ outerStyle `sublist_of` o
    ∧ innerStyle `sublist_of` o
    ∧ NoDup (keys outerStyle)
    ∧ NoDup (keys innerStyle).
Proof.
  intros Hl Hnd. eexists _, _, _. split; [by apply splitStyle_plain|].
  split; [apply sublist_filter|]. split; [apply sublist_filter|].
  split; by apply NoDup_keys_filter.
Qed.

Lemma splitStyle_keeps_order_witness :
  ∃ outerStyle innerStyle s',
    splitStyle (VRef 5%positive) demo_state
    = (Normal (outerStyle, innerStyle), s')
    ∧ outerStyle `sublist_of` demo_merged
    ∧ innerStyle `sublist_of` demo_merged
    ∧ NoDup (keys outerStyle)
    ∧ NoDup (keys innerStyle).
Proof.
  apply (splitStyle_keeps_order demo_state 5%positive demo_merged);
    [reflexivity | apply NoDup_demo_merged].
Defined.

(** * Further properties: the TouchableOpacity and the mask *)

Lemma get_prop_spread_in k v (rest : object) :
  ∀ base,
    NoDup (keys rest) → get_prop k rest = Some v →
    get_prop k (spread rest base) = Some (JVal v).
Proof.
  unfold spread. induction rest as [|[k' v'] rest IH]; intros base Hnd;
    [done|].
  change (keys ((k', v') :: rest)) with (k' :: keys rest) in Hnd.
  apply NoDup_cons in Hnd as [Hk Hnd]. cbn [get_prop foldl fst snd].
  destruct (decide (k = k')) as [->|Hne].
  - intros [= ->].
    pose proof (get_prop_spread_notin k' rest
                  (set_prop k' (JVal v) base) Hk) as Hsp.
    unfold spread in Hsp. rewrite Hsp, get_prop_set_prop.
    by rewrite decide_True.
  - intros Hin. by apply IH.
Qed.

Lemma touchableProps_get_prop props k :
  k ∉ destructured →
  get_prop k (touchableProps (destructure props)) = get_prop k props.
Proof.
  intros Hk. cbn [touchableProps destructure].
  pose proof (get_prop_filter (λ k, k ∉ destructured) k props) as ->.
  by rewrite decide_True.
Qed.

(** X10.  Every property the parameter pattern does not name (testID,
    onLongPress, hitSlop and so on), other than [children], reaches the
    TouchableOpacity with the value the caller gave it, and a property the
    caller did not give is not invented.  A [children] property of the
    caller does not reach it: the element's one child is the content View
    of the component.
    The [textStyle] is one whose entries can be deleted. *)
Theorem other_props_reach_touchable (props : object) (s : state)
    (k : string) :
  validates (heap s) props = true →
  ¬ undeletable s (prop "textStyle" props) →
  NoDup (keys props) →
  k ∉ destructured →
  k ≠ "children" →
  ∃ tree s' t c,
    GradientButton props s = (Normal tree, s')
    ∧ touchable tree = Some t
    ∧ attr k t = JVal <$> get_prop k props
    ∧ attr "children" t = None
    ∧ children_of t = [c]
    ∧ type_of c = Some View
    ∧ attr "style" c = Some (JObject styles.buttonContent).
Proof.
  intros Hv Hdel Hnd Hk Hchildren.
  destruct (GradientButton_valid props s Hv Hdel)
    as (outer & inner & ws & _ & ->).
  eexists _, _, _, _. split; [done|]. split; [apply touchable_view|].
  unfold attr. cbn [attrs_of children_of]. unfold touchable_attrs.
  split; [|split; [|by repeat split]].
  - assert (k ≠ "style") as Hstyle.
    { intros ->. apply Hk. unfold destructured. rewrite !elem_of_cons.
      tauto. }
    rewrite get_prop_delete_prop, decide_False by done.
    rewrite get_prop_set_prop, decide_False by done.
    destruct (get_prop k props) as [v|] eqn:Hget.
    + apply get_prop_spread_in.
      * cbn [touchableProps destructure]. by apply NoDup_keys_filter.
      * by rewrite touchableProps_get_prop.
    + rewrite get_prop_spread_notin.
      * cbn [get_prop].
        repeat (rewrite decide_False;
                [|intros ->; apply Hk; unfold destructured;
                  rewrite !elem_of_cons; tauto]).
        done.
      * apply get_prop_None. by rewrite touchableProps_get_prop.
  - rewrite get_prop_delete_prop. by rewrite decide_True.
Qed.

Lemma NoDup_demo_props : NoDup (keys demo_props).
Proof. apply (bool_decide_unpack _). by vm_compute. Qed.

Lemma testID_not_destructured : "testID" ∉ destructured.
Proof. apply (bool_decide_unpack _). by vm_compute. Qed.

Lemma other_props_reach_touchable_witness :
  ∃ tree s' t,
    GradientButton demo_props demo_state = (Normal tree, s')
    ∧ touchable tree = Some t
    ∧ attr "testID" t = Some (JVal (VString "cta"))
    ∧ attr "children" t = None.
Proof.
  destruct (other_props_reach_touchable demo_props demo_state "testID")
    as (tree & s' & t & c & Hrun & Ht & Hk & Hchildren & _).
  - reflexivity.
  - by apply unfrozen_deletable.
  - apply NoDup_demo_props.
  - apply testID_not_destructured.
  - discriminate.
  - by exists tree, s', t.
Defined.

(** X11.  The TouchableOpacity is always styled with the style sheet's
    button entry, never with anything of the caller's [style]; it receives
    [onPress] and [accessibilityHint] as given, [activeOpacity] with default
    0.7 and [accessibilityRole] with default button, and the spread of the
    remaining properties cannot replace any of them.
    The [textStyle] is one whose entries can be deleted. *)
Theorem touchable_fixed_attrs (props : object) (s : state) :
  validates (heap s) props = true →
  ¬ undeletable s (prop "textStyle" props) →
  ∃ tree s' t,
    GradientButton props s = (Normal tree, s')
    ∧ touchable tree = Some t
    ∧ attr "style" t = Some (JObject [("width", VString "100%")])
    ∧ attr "onPress" t = Some (JVal (prop "onPress" props))
    ∧ attr "activeOpacity" t
      = Some (JVal (prop_or "activeOpacity" (VNumber 0.7) props))
    ∧ attr "accessibilityRole" t
      = Some (JVal (prop_or "accessibilityRole" (VString "button") props))
    ∧ attr "accessibilityHint" t
      = Some (JVal (prop "accessibilityHint" props)).
Proof.
  intros Hv Hdel.
  destruct (GradientButton_valid props s Hv Hdel) as (outer & inner & ws & _ & ->).
  eexists _, _, _. split; [done|]. split; [apply touchable_view|].
  unfold attr. cbn [attrs_of].
  split.
  { unfold touchable_attrs.
    rewrite get_prop_delete_prop, decide_False by done.
    rewrite get_prop_set_prop. by rewrite decide_True. }
  repeat split;
    (rewrite touchable_attr;
     [done | unfold destructured; rewrite !elem_of_cons; tauto | done]).
Qed.

Lemma touchable_fixed_attrs_witness :
  validates (heap demo_state) demo_props = true
  ∧ ∃ tree s' t,
      GradientButton demo_props demo_state = (Normal tree, s')
      ∧ touchable tree = Some t
      ∧ attr "style" t = Some (JObject [("width", VString "100%")])
      ∧ attr "onPress" t = Some (JVal (VFunction 0)).
Proof.
  split; [reflexivity|].
  destruct (touchable_fixed_attrs demo_props demo_state)
    as (tree & s' & t & Hrun & Ht & Hstyle & Hpress & _); [reflexivity | by apply unfrozen_deletable |].
  by exists tree, s', t.
Defined.

(** X12.  The TouchableOpacity is disabled exactly when [disabled] or
    [loading] is truthy: with both falsy (or absent) the button can be
    pressed.
    The [textStyle] is one whose entries can be deleted. *)
Theorem disabled_iff_disabled_or_loading (props : object) (s : state) :
  validates (heap s) props = true →
  ¬ undeletable s (prop "textStyle" props) →
  ∃ tree s' t d,
    GradientButton props s = (Normal tree, s')
    ∧ touchable tree = Some t
    ∧ attr "disabled" t = Some (JVal d)
    ∧ truthy d
      = truthy (prop_or "disabled" (VBool false) props)
        || truthy (prop_or "loading" (VBool false) props).
Proof.
  intros Hv Hdel.
  destruct (GradientButton_valid props s Hv Hdel) as (outer & inner & ws & _ & ->).
  eexists _, _, _, _. split; [done|]. split; [apply touchable_view|].
  unfold attr. cbn [attrs_of].
  rewrite touchable_attr;
    [| unfold destructured; rewrite !elem_of_cons; tauto | done].
  split; [reflexivity|]. apply truthy_js_or.
Qed.

Lemma disabled_iff_disabled_or_loading_witness :
  validates (heap demo_state) demo_props = true
  ∧ ∃ tree s' t d,
      GradientButton demo_props demo_state = (Normal tree, s')
      ∧ touchable tree = Some t
      ∧ attr "disabled" t = Some (JVal d)
      ∧ truthy d = false.
Proof.
  split; [reflexivity|].
  destruct (disabled_iff_disabled_or_loading demo_props demo_state)
    as (tree & s' & t & d & Hrun & Ht & Hd & Htruthy); [reflexivity | by apply unfrozen_deletable |].
  exists tree, s', t, d. by rewrite Htruthy.
Defined.

(** X13.  A truthy [accessibilityLabel] is used as it is: the fallback to
    [text] never replaces a label the caller gave.
    The [textStyle] is one whose entries can be deleted. *)
Theorem given_label_is_kept (props : object) (s : state) :
  validates (heap s) props = true →
  ¬ undeletable s (prop "textStyle" props) →
  truthy (prop "accessibilityLabel" props) = true →
  ∃ tree s' t,
    GradientButton props s = (Normal tree, s')
    ∧ touchable tree = Some t
    ∧ attr "accessibilityLabel" t
      = Some (JVal (prop "accessibilityLabel" props)).
Proof.
  intros Hv Hdel Hlabel.
  destruct (GradientButton_valid props s Hv Hdel) as (outer & inner & ws & _ & ->).
  eexists _, _, _. split; [done|]. split; [apply touchable_view|].
  unfold attr. cbn [attrs_of].
  rewrite touchable_attr;
    [| unfold destructured; rewrite !elem_of_cons; tauto | done].
  cbn [get_prop destructure accessibilityLabel text].
  unfold js_or. by rewrite Hlabel.
Qed.

Lemma given_label_is_kept_witness :
  ∃ tree s' t,
    GradientButton
      (("accessibilityLabel", VString "Submit form") :: demo_props)
      demo_state
    = (Normal tree, s')
    ∧ touchable tree = Some t
    ∧ attr "accessibilityLabel" t = Some (JVal (VString "Submit form")).
Proof.
  apply (given_label_is_kept
           (("accessibilityLabel", VString "Submit form") :: demo_props)
           demo_state);
    [reflexivity | by apply unfrozen_deletable | reflexivity].
Defined.

Lemma mask_view v outerStyle innerStyle :
  mask (view v outerStyle innerStyle) = Some (mask_element v innerStyle).
Proof. reflexivity. Qed.

Lemma goes_inner_layout k :
  k ∈ layoutStyleProps → goes_inner k = false.
Proof.
  intros Hk%includes_true. unfold goes_inner. rewrite Hk.
  apply andb_false_r.
Qed.

(** X14.  The mask container keeps the width, height and padding of the
    style sheet (100%, 100%, 10%) whatever the caller's [style] holds,
    because [innerStyle] never carries a layout key; its borderRadius is the
    caller's when [innerStyle] has one and 60 otherwise.  The container
    ignores touches and is never collapsed.
    The [textStyle] is one whose entries can be deleted. *)
Theorem mask_container_layout_fixed (props : object) (s : state) :
  validates (heap s) props = true →
  ¬ undeletable s (prop "textStyle" props) →
  ∃ tree s' m innerStyle,
    GradientButton props s = (Normal tree, s')
    ∧ mask tree = Some m
    ∧ attr "style" m
      = Some (JArray [JObject styles.maskContainer; JObject innerStyle])
    ∧ attr "pointerEvents" m = Some (JVal (VString "none"))
    ∧ attr "collapsable" m = Some (JVal (VBool false))
    ∧ get_prop "width" (mask_style innerStyle) = Some (VString "100%")
    ∧ get_prop "height" (mask_style innerStyle) = Some (VString "100%")
    ∧ get_prop "padding" (mask_style innerStyle) = Some (VString "10%")
    ∧ get_prop "borderRadius" (mask_style innerStyle)
      = Some (default (VNumber 60) (get_prop "borderRadius" innerStyle)).
Proof.
  intros Hv Hdel.
  destruct (GradientButton_valid props s Hv Hdel)
    as (outer & inner & ws & Hsplit & ->).
  apply splitStyle_inv in Hsplit as (_ & Hnd & _ & Hki).
  assert (∀ k, k ∈ layoutStyleProps →
               get_prop k (mask_style inner)
               = get_prop k styles.maskContainer) as Hfixed.
  { intros k Hk. apply get_prop_assign_notin. intros Hin%Hki.
    rewrite goes_inner_layout in Hin; done. }
  eexists _, _, _, inner. split; [done|]. split; [apply mask_view|].
  split; [done|]. split; [done|]. split; [done|].
  split.
  { rewrite Hfixed; [done|]. unfold layoutStyleProps.
    rewrite !elem_of_cons. tauto. }
  split.
  { rewrite Hfixed; [done|]. unfold layoutStyleProps.
    rewrite !elem_of_cons. tauto. }
  split.
  { rewrite Hfixed; [done|]. unfold layoutStyleProps.
    rewrite !elem_of_cons. tauto. }
  unfold mask_style.
  rewrite <- to_map_lookup, to_map_assign, lookup_union, !to_map_lookup
    by done.
  by destruct (get_prop "borderRadius" inner).
Qed.

Lemma mask_container_layout_fixed_witness :
  validates (heap demo_state) demo_props = true
  ∧ ∃ tree s' m innerStyle,
      GradientButton demo_props demo_state = (Normal tree, s')
      ∧ mask tree = Some m
      ∧ get_prop "width" (mask_style innerStyle) = Some (VString "100%")
      ∧ get_prop "padding" (mask_style innerStyle) = Some (VString "10%").
Proof.
  split; [reflexivity|].
  destruct (mask_container_layout_fixed demo_props demo_state)
    as (tree & s' & m & inner & Hrun & Hm & _ & _ & _ & Hw & _ & Hp & _);
    [reflexivity | by apply unfrozen_deletable |].
  by exists tree, s', m, inner.
Defined.

Lemma masked_view_view v outerStyle innerStyle :
  masked_view (view v outerStyle innerStyle)
  = Some (JElement MaskedView
            [("maskElement", mask_element v innerStyle);
             ("style", StyleSheet_absoluteFill);
             ("pointerEvents", JVal (VString "none"))]
            [gradient v]).
Proof. reflexivity. Qed.

(** X15.  Neither the MaskedView nor the LinearGradient inside it takes
    touches, and both fill their parent: each has pointerEvents none and the
    host's absolute-fill style, so a press always lands on the
    TouchableOpacity.
    The [textStyle] is one whose entries can be deleted. *)
Theorem mask_and_gradient_ignore_touches (props : object) (s : state) :
  validates (heap s) props = true →
  ¬ undeletable s (prop "textStyle" props) →
  ∃ tree s' mv g,
    GradientButton props s = (Normal tree, s')
    ∧ masked_view tree = Some mv
    ∧ children_of mv = [g]
    ∧ type_of g = Some LinearGradient
    ∧ attr "pointerEvents" mv = Some (JVal (VString "none"))
    ∧ attr "style" mv = Some StyleSheet_absoluteFill
    ∧ attr "pointerEvents" g = Some (JVal (VString "none"))
    ∧ attr "style" g = Some StyleSheet_absoluteFill.
Proof.
  intros Hv Hdel.
  destruct (GradientButton_valid props s Hv Hdel) as (outer & inner & ws & _ & ->).
  eexists _, _, _, _. split; [done|].
  split; [apply masked_view_view|]. by repeat split.
Qed.

Lemma mask_and_gradient_ignore_touches_witness :
  validates (heap demo_state) demo_props = true
  ∧ ∃ tree s' mv g,
      GradientButton demo_props demo_state = (Normal tree, s')
      ∧ masked_view tree = Some mv
      ∧ children_of mv = [g]
      ∧ attr "pointerEvents" mv = Some (JVal (VString "none"))
      ∧ attr "pointerEvents" g = Some (JVal (VString "none")).
Proof.
  split; [reflexivity|].
  destruct (mask_and_gradient_ignore_touches demo_props demo_state)
    as (tree & s' & mv & g & Hrun & Hmv & Hg & _ & Hp & _ & Hpg & _);
    [reflexivity | by apply unfrozen_deletable |].
  by exists tree, s', mv, g.
Defined.

(** * Further properties: a frozen [textStyle] *)


